(** * The session and token lifecycle of the consultants client

    A shallow embedding of [AuthService] (src/app/services/auth.service.ts):
    the in-memory session signal, its mirror in [window.localStorage], the
    sign-in and refresh exchanges with the identity service, and the
    observable authentication state.

    Conventions of the embedding.

    - A JavaScript string is represented by its UTF-8 encoding, a Rocq
      [string]; an unpaired surrogate is given the three bytes that the
      same scheme gives the code points around it.
    - A JavaScript number is [NaN], an integer or a decimal fraction, and
      the arithmetic is exact: the rounding of doubles, the infinities,
      the fractions too small for a double and negative zero are left
      out.  Every number that the service computes
      comes from [Date.now()], an integral count of milliseconds, and from
      the declared lifetime.
    - The session signal holds a JSON value, not a record: the type
      [AuthSession] is erased when the service runs, and [restoreSession]
      hands over whatever [JSON.parse] returns.  The bodies of the two
      HTTP responses are taken with the types that the service declares
      for them.
    - A call of an [async] method that its caller awaits is run to the
      settlement of its promise, as one step: what another call does in
      between is not described.  The call that the constructor does not
      await is run to its first [await], and what is left of it is a
      pending promise.
    - [Storage] operations succeed whenever [window] exists. *)

From Stdlib Require Import ZArith Ascii String DecimalPos DecimalZ DecimalFacts Lia.
From stdpp Require Import gmap strings list.

Local Open Scope string_scope.
Local Open Scope Z_scope.

(** ** Characters and strings *)

Definition DQUOTE : ascii := "034"%char.
Definition BACKSLASH : ascii := "092"%char.

Definition code (c : ascii) : N := N_of_ascii c.

Definition is_empty (s : string) : bool :=
  match s with
  | EmptyString => true
  | String _ _ => false
  end.

Fixpoint rev_onto (s acc : string) : string :=
  match s with
  | EmptyString => acc
  | String c s' => rev_onto s' (String c acc)
  end.

Definition string_rev (s : string) : string := rev_onto s EmptyString.

(** [js "{'a':1}"] is the text [{"a":1}]: an apostrophe stands for a double
    quote, which keeps the JSON texts below readable. *)
Fixpoint js (s : string) : string :=
  match s with
  | EmptyString => EmptyString
  | String c s' => String (if Ascii.eqb c "'"%char then DQUOTE else c) (js s')
  end.

(** *** [String.prototype.trim]

    White space and line terminators of ECMAScript, in UTF-8: the ASCII
    characters TAB, LF, VT, FF, CR and SPACE, then U+00A0, U+1680,
    U+2000 to U+200A, U+2028, U+2029, U+202F, U+205F, U+3000 and U+FEFF. *)

Definition ascii_space (c : ascii) : bool :=
  match code c with
  | 9%N | 10%N | 11%N | 12%N | 13%N | 32%N => true
  | _ => false
  end.

Definition space3 (a b c : ascii) : bool :=
  match code a, code b, code c with
  | 225%N, 154%N, 128%N => true
  | 226%N, 128%N, z => (128 <=? z)%N && (z <=? 138)%N || (z =? 168)%N || (z =? 169)%N || (z =? 175)%N
  | 226%N, 129%N, 159%N => true
  | 227%N, 128%N, 128%N => true
  | 239%N, 187%N, 191%N => true
  | _, _, _ => false
  end.

Definition space2 (a b : ascii) : bool :=
  match code a, code b with
  | 194%N, 160%N => true
  | _, _ => false
  end.

Fixpoint trimStart (s : string) : string :=
  match s with
  | String a s1 =>
      if ascii_space a then trimStart s1
      else match s1 with
           | String b s2 =>
               if space2 a b then trimStart s2
               else match s2 with
                    | String c s3 => if space3 a b c then trimStart s3 else s
                    | EmptyString => s
                    end
           | EmptyString => s
           end
  | EmptyString => s
  end.

(** The same scan on the reversed string, where the bytes of a multi-byte
    space arrive last byte first. *)
Fixpoint trimStart_rev (s : string) : string :=
  match s with
  | String a s1 =>
      if ascii_space a then trimStart_rev s1
      else match s1 with
           | String b s2 =>
               if space2 b a then trimStart_rev s2
               else match s2 with
                    | String c s3 => if space3 c b a then trimStart_rev s3 else s
                    | EmptyString => s
                    end
           | EmptyString => s
           end
  | EmptyString => s
  end.

Definition trimEnd (s : string) : string := string_rev (trimStart_rev (string_rev s)).

Definition trim (s : string) : string := trimEnd (trimStart s).

(** ** Numbers *)

(** [Frac m k] is the fraction [m / 10^k], where [m] is no multiple of
    ten. *)
Inductive number : Type :=
| NaN
| Int (z : Z)
| Frac (m : Z) (k : positive).

(** [m / 10^k] in its shortest form. *)
Fixpoint fraction (m : Z) (k : nat) : number :=
  match k with
  | O => Int m
  | S k' => if m mod 10 =? 0 then fraction (m / 10) k' else Frac m (Pos.of_succ_nat k')
  end.

Definition decimal_parts (n : number) : option (Z * nat) :=
  match n with
  | NaN => None
  | Int z => Some (z, O)
  | Frac m k => Some (m, Pos.to_nat k)
  end.

(** [f x y k] for two numbers written [x / 10^k] and [y / 10^k]. *)
Definition over_common {A} (f : Z -> Z -> nat -> A) (nan : A) (a b : number) : A :=
  match decimal_parts a, decimal_parts b with
  | Some (x, i), Some (y, j) =>
      f (x * 10 ^ Z.of_nat (j - i)) (y * 10 ^ Z.of_nat (i - j)) (Nat.max i j)
  | _, _ => nan
  end.

Definition num_neg (a : number) : number :=
  match a with
  | NaN => NaN
  | Int z => Int (- z)
  | Frac m k => Frac (- m) k
  end.

Definition num_add (a b : number) : number :=
  match a, b with
  | Int x, Int y => Int (x + y)
  | _, _ => over_common (fun x y k => fraction (x + y) k) NaN a b
  end.

Definition num_sub (a b : number) : number :=
  match a, b with
  | Int x, Int y => Int (x - y)
  | _, _ => over_common (fun x y k => fraction (x - y) k) NaN a b
  end.

Definition num_mul (a b : number) : number :=
  match a, b with
  | Int x, Int y => Int (x * y)
  | _, _ =>
      match decimal_parts a, decimal_parts b with
      | Some (x, i), Some (y, j) => fraction (x * y) (i + j)
      | _, _ => NaN
      end
  end.

(** [a > b] and [a <= b]: both are false as soon as one side is [NaN]. *)
Definition num_gt (a b : number) : bool :=
  match a, b with
  | Int x, Int y => y <? x
  | _, _ => over_common (fun x y _ => y <? x) false a b
  end.

Definition num_le (a b : number) : bool :=
  match a, b with
  | Int x, Int y => x <=? y
  | _, _ => over_common (fun x y _ => x <=? y) false a b
  end.

(** Decimal digits. *)

Fixpoint string_of_uint (d : Decimal.uint) : string :=
  match d with
  | Decimal.Nil => EmptyString
  | Decimal.D0 d' => String "0" (string_of_uint d')
  | Decimal.D1 d' => String "1" (string_of_uint d')
  | Decimal.D2 d' => String "2" (string_of_uint d')
  | Decimal.D3 d' => String "3" (string_of_uint d')
  | Decimal.D4 d' => String "4" (string_of_uint d')
  | Decimal.D5 d' => String "5" (string_of_uint d')
  | Decimal.D6 d' => String "6" (string_of_uint d')
  | Decimal.D7 d' => String "7" (string_of_uint d')
  | Decimal.D8 d' => String "8" (string_of_uint d')
  | Decimal.D9 d' => String "9" (string_of_uint d')
  end.

Definition string_of_Z (z : Z) : string :=
  match Z.to_int z with
  | Decimal.Pos d => string_of_uint d
  | Decimal.Neg d => String "-" (string_of_uint d)
  end.

Fixpoint zeros (n : nat) (tail : string) : string :=
  match n with
  | O => tail
  | S n' => String "0" (zeros n' tail)
  end.

(** The first [n] characters of a string and the others. *)
Fixpoint split_at (n : nat) (s : string) : string * string :=
  match n, s with
  | S n', String c s' => let (a, b) := split_at n' s' in (String c a, b)
  | _, _ => (EmptyString, s)
  end.

(** [Number::toString] on a fraction whose digits are [digits] and whose
    decimal point stands after the first [n] of them: the digits with the
    point when [0 < n <= 21], behind [0.] and zeros when [-6 < n <= 0], and
    the exponent notation otherwise. *)
Definition point_notation (digits : string) (n : Z) : string :=
  if (0 <? n) && (n <=? 21) then
    let (a, b) := split_at (Z.to_nat n) digits in a +:+ String "." b
  else if (-6 <? n) && (n <=? 0) then
    String "0" (String "." (zeros (Z.to_nat (- n)) digits))
  else
    let (a, b) := split_at 1 digits in
    a +:+ (if is_empty b then EmptyString else String "." b)
      +:+ String "e" (String (if 0 <=? n - 1 then "+"%char else "-"%char)
                        (string_of_Z (Z.abs (n - 1)))).

(** [Number::toString]: an integer is written with all its digits (as
    JavaScript does below 10^21). *)
Definition number_to_string (n : number) : string :=
  match n with
  | NaN => "NaN"
  | Int z => string_of_Z z
  | Frac m k =>
      let digits := string_of_Z (Z.abs m) in
      let body := point_notation digits (Z.of_nat (String.length digits) - Z.pos k) in
      if m <? 0 then String "-" body else body
  end.

Definition digit (c : ascii) : option (Decimal.uint -> Decimal.uint) :=
  match c with
  | "0"%char => Some Decimal.D0
  | "1"%char => Some Decimal.D1
  | "2"%char => Some Decimal.D2
  | "3"%char => Some Decimal.D3
  | "4"%char => Some Decimal.D4
  | "5"%char => Some Decimal.D5
  | "6"%char => Some Decimal.D6
  | "7"%char => Some Decimal.D7
  | "8"%char => Some Decimal.D8
  | "9"%char => Some Decimal.D9
  | _ => None
  end.

(** The longest prefix of decimal digits, and what follows it. *)
Fixpoint read_uint (s : string) : Decimal.uint * string :=
  match s with
  | String c s' =>
      match digit c with
      | Some d => let (u, rest) := read_uint s' in (d u, rest)
      | None => (Decimal.Nil, s)
      end
  | EmptyString => (Decimal.Nil, s)
  end.

(** ** Errors and results *)

Inductive exn : Type :=
| Error (message : string)
| TypeError
| SyntaxError
| ReferenceError
| HttpErrorResponse (status : Z).

Inductive result (A : Type) : Type :=
| Ok (a : A)
| Throw (e : exn).

Arguments Ok {A} a.
Arguments Throw {A} e.

(** ** Values *)

Unset Elimination Schemes.
Inductive value : Type :=
| VUndefined
| VNull
| VBool (b : bool)
| VNum (n : number)
| VStr (s : string)
| VArr (items : list value)
| VObj (props : list (string * value)).
Set Elimination Schemes.

Fixpoint lookup_prop (k : string) (props : list (string * value)) : option value :=
  match props with
  | [] => None
  | (k', v) :: rest => if String.eqb k k' then Some v else lookup_prop k rest
  end.

(** [v.k] for a value [v] that is neither [null] nor [undefined] and a
    name [k] that the built-in prototypes do not define: the own property of
    an object, [undefined] anywhere else. *)
Definition get (v : value) (k : string) : value :=
  match v with
  | VObj props => default VUndefined (lookup_prop k props)
  | _ => VUndefined
  end.

(** [!!v]. *)
Definition truthy (v : value) : bool :=
  match v with
  | VUndefined | VNull => false
  | VBool b => b
  | VNum NaN => false
  | VNum (Int z) => negb (z =? 0)
  | VNum (Frac m _) => negb (m =? 0)
  | VStr s => negb (is_empty s)
  | VArr _ | VObj _ => true
  end.

Definition has_own (k : string) (props : list (string * value)) : bool :=
  match lookup_prop k props with
  | Some _ => true
  | None => false
  end.

(** [ToString] on a JSON value.  An array joins its elements with commas,
    [null] and [undefined] elements giving the empty string.  A plain object
    answers [[object Object]] through [Object.prototype.toString], unless an
    own property named [toString] hides that method: the property is data,
    not callable, and the conversion throws. *)
Fixpoint ToString (v : value) : result string :=
  match v with
  | VUndefined => Ok "undefined"
  | VNull => Ok "null"
  | VBool true => Ok "true"
  | VBool false => Ok "false"
  | VNum n => Ok (number_to_string n)
  | VStr s => Ok s
  | VArr items =>
      (fix join (l : list value) : result string :=
         match l with
         | [] => Ok EmptyString
         | x :: rest =>
             let head :=
               match x with
               | VUndefined | VNull => Ok EmptyString
               | _ => ToString x
               end in
             match head, rest with
             | Throw e, _ => Throw e
             | Ok s, [] => Ok s
             | Ok s, _ :: _ =>
                 match join rest with
                 | Ok r => Ok (s +:+ "," +:+ r)
                 | Throw e => Throw e
                 end
             end
         end) items
  | VObj props => if has_own "toString" props then Throw TypeError else Ok "[object Object]"
  end.

(** ** JSON *)

(** *** [JSON.stringify] *)

Definition hex_digit (n : N) : ascii :=
  match n with
  | 0%N => "0" | 1%N => "1" | 2%N => "2" | 3%N => "3" | 4%N => "4"
  | 5%N => "5" | 6%N => "6" | 7%N => "7" | 8%N => "8" | 9%N => "9"
  | 10%N => "a" | 11%N => "b" | 12%N => "c" | 13%N => "d" | 14%N => "e"
  | _ => "f"
  end%char.

(** [QuoteJSONString] on one character that is no surrogate: the
    two-character escapes, [\u00xx] for the other control characters, the
    character itself otherwise. *)
Definition quote_char (c : ascii) (tail : string) : string :=
  match c with
  | "008"%char => String BACKSLASH (String "b" tail)
  | "009"%char => String BACKSLASH (String "t" tail)
  | "010"%char => String BACKSLASH (String "n" tail)
  | "012"%char => String BACKSLASH (String "f" tail)
  | "013"%char => String BACKSLASH (String "r" tail)
  | "034"%char => String BACKSLASH (String DQUOTE tail)
  | "092"%char => String BACKSLASH (String BACKSLASH tail)
  | _ =>
      if (code c <? 32)%N
      then String BACKSLASH (String "u" (String "0" (String "0"
             (String (hex_digit (code c / 16)) (String (hex_digit (code c mod 16)) tail)))))
      else String c tail
  end.

(** A surrogate in a string: the byte 237, a second byte that tells a
    high surrogate from a low one, and a third byte. *)
Definition high_second (b : ascii) : bool := (160 <=? code b)%N && (code b <=? 175)%N.
Definition low_second (b : ascii) : bool := (176 <=? code b)%N && (code b <=? 191)%N.
Definition continuation (x : ascii) : bool := (128 <=? code x)%N && (code x <=? 191)%N.

Definition high_triple (c b x : ascii) : bool :=
  Ascii.eqb c "237" && high_second b && continuation x.

Definition low_triple (c b x : ascii) : bool :=
  Ascii.eqb c "237" && low_second b && continuation x.

(** The code unit that the three bytes stand for. *)
Definition surrogate_unit (b x : ascii) : N :=
  (53248 + (code b - 128) * 64 + (code x - 128))%N.

(** [UnicodeEscape]: [\u] and four hexadecimal digits, in lower case. *)
Definition unicode_escape (u : N) (tail : string) : string :=
  String BACKSLASH (String "u"
    (String (hex_digit (u / 4096)) (String (hex_digit ((u / 256) mod 16))
       (String (hex_digit ((u / 16) mod 16)) (String (hex_digit (u mod 16)) tail))))).

(** [QuoteJSONString] on the whole string.  A surrogate that is not half
    of a pair is written as an escape; a high surrogate followed by a low
    one is a character like the others. *)
Fixpoint quote_body (s : string) (tail : string) : string :=
  match s with
  | EmptyString => tail
  | String c s1 =>
      match s1 with
      | String b (String x s3) =>
          if high_triple c b x then
            match s3 with
            | String c' (String b' (String x' s6)) =>
                if low_triple c' b' x' then
                  String c (String b (String x
                    (String c' (String b' (String x' (quote_body s6 tail))))))
                else unicode_escape (surrogate_unit b x) (quote_body s3 tail)
            | _ => unicode_escape (surrogate_unit b x) (quote_body s3 tail)
            end
          else if low_triple c b x then
            unicode_escape (surrogate_unit b x) (quote_body s3 tail)
          else quote_char c (quote_body s1 tail)
      | _ => quote_char c (quote_body s1 tail)
      end
  end.

Definition quote_onto (s : string) (tail : string) : string :=
  String DQUOTE (quote_body s (String DQUOTE tail)).

Definition quote (s : string) : string := quote_onto s EmptyString.

Fixpoint join_with (sep : string) (l : list string) : string :=
  match l with
  | [] => EmptyString
  | [x] => x
  | x :: rest => x +:+ sep +:+ join_with sep rest
  end.

(** [JSON.stringify v], [None] standing for the answer [undefined].  A
    number that is not finite is written [null]; an [undefined] element of
    an array is written [null]; a property whose value is [undefined] is
    left out. *)
Fixpoint JSON_stringify (v : value) : option string :=
  match v with
  | VUndefined => None
  | VNull => Some "null"
  | VBool true => Some "true"
  | VBool false => Some "false"
  | VNum NaN => Some "null"
  | VNum (Int z) => Some (string_of_Z z)
  | VNum (Frac m k) => Some (number_to_string (Frac m k))
  | VStr s => Some (quote s)
  | VArr items =>
      Some ("[" +:+ join_with ","
              ((fix elements (l : list value) : list string :=
                  match l with
                  | [] => []
                  | x :: rest => default "null" (JSON_stringify x) :: elements rest
                  end) items) +:+ "]")
  | VObj props =>
      Some ("{" +:+ join_with ","
              ((fix members (l : list (string * value)) : list string :=
                  match l with
                  | [] => []
                  | (k, x) :: rest =>
                      match JSON_stringify x with
                      | Some t => (quote k +:+ ":" +:+ t) :: members rest
                      | None => members rest
                      end
                  end) props) +:+ "}")
  end.

(** *** [JSON.parse] *)

Definition hex_value (c : ascii) : option N :=
  let n := code c in
  if (48 <=? n)%N && (n <=? 57)%N then Some (n - 48)%N
  else if (97 <=? n)%N && (n <=? 102)%N then Some (n - 87)%N
  else if (65 <=? n)%N && (n <=? 70)%N then Some (n - 55)%N
  else None.

Definition hex4 (a b c d : ascii) : option N :=
  match hex_value a, hex_value b, hex_value c, hex_value d with
  | Some x, Some y, Some z, Some t => Some (4096 * x + 256 * y + 16 * z + t)%N
  | _, _, _, _ => None
  end.

Definition is_high_surrogate (u : N) : bool := (55296 <=? u)%N && (u <=? 56319)%N.
Definition is_low_surrogate (u : N) : bool := (56320 <=? u)%N && (u <=? 57343)%N.

Definition byte (n : N) : ascii := ascii_of_N n.

(** The UTF-8 encoding of a code point; a surrogate is given three bytes,
    as the code points around it are. *)
Definition utf8 (u : N) (tail : string) : string :=
  if (u <? 128)%N then String (byte u) tail
  else if (u <? 2048)%N then
    String (byte (192 + u / 64)) (String (byte (128 + u mod 64)) tail)
  else if (u <? 65536)%N then
    String (byte (224 + u / 4096))
      (String (byte (128 + (u / 64) mod 64)) (String (byte (128 + u mod 64)) tail))
  else
    String (byte (240 + u / 262144))
      (String (byte (128 + (u / 4096) mod 64))
         (String (byte (128 + (u / 64) mod 64)) (String (byte (128 + u mod 64)) tail))).

Definition push (c : ascii) (r : option (string * string)) : option (string * string) :=
  match r with
  | Some (s, rest) => Some (String c s, rest)
  | None => None
  end.

Definition push_utf8 (u : N) (r : option (string * string)) : option (string * string) :=
  match r with
  | Some (s, rest) => Some (utf8 u s, rest)
  | None => None
  end.

(** The characters of a string literal after its opening quote: the decoded
    string and the text after the closing quote.  The [\u] escape of a high
    surrogate and the escape of a low one that follows it make one
    character; a surrogate escaped alone is kept, as its three bytes. *)
Fixpoint string_body (s : string) : option (string * string) :=
  match s with
  | EmptyString => None
  | String c rest =>
      match c with
      | "034"%char => Some (EmptyString, rest)
      | "092"%char =>
          match rest with
          | EmptyString => None
          | String e rest1 =>
              match e with
              | "034"%char => push DQUOTE (string_body rest1)
              | "092"%char => push BACKSLASH (string_body rest1)
              | "/"%char => push "/" (string_body rest1)
              | "b"%char => push "008" (string_body rest1)
              | "f"%char => push "012" (string_body rest1)
              | "n"%char => push "010" (string_body rest1)
              | "r"%char => push "013" (string_body rest1)
              | "t"%char => push "009" (string_body rest1)
              | "u"%char =>
                  match rest1 with
                  | String h1 (String h2 (String h3 (String h4 rest2))) =>
                      match hex4 h1 h2 h3 h4 with
                      | None => None
                      | Some u =>
                          if is_high_surrogate u then
                            match rest2 with
                            | String b (String x (String l1 (String l2 (String l3 (String l4 rest3))))) =>
                                if Ascii.eqb b BACKSLASH && Ascii.eqb x "u" then
                                  match hex4 l1 l2 l3 l4 with
                                  | Some lo =>
                                      if is_low_surrogate lo
                                      then push_utf8 (65536 + (u - 55296) * 1024 + (lo - 56320))%N
                                             (string_body rest3)
                                      else push_utf8 u (string_body rest2)
                                  | None => push_utf8 u (string_body rest2)
                                  end
                                else push_utf8 u (string_body rest2)
                            | _ => push_utf8 u (string_body rest2)
                            end
                          else push_utf8 u (string_body rest2)
                      end
                  | _ => None
                  end
              | _ => None
              end
          end
      | _ => if (code c <? 32)%N then None else push c (string_body rest)
      end
  end.

(** The text starts with the escape of a low surrogate. *)
Definition low_escape_ahead (s : string) : bool :=
  match s with
  | String b r =>
      if Ascii.eqb b BACKSLASH then
        match r with
        | String x r2 =>
            if Ascii.eqb x "u" then
              match r2 with
              | String l1 (String l2 (String l3 (String l4 _))) =>
                  match hex4 l1 l2 l3 l4 with
                  | Some lo => is_low_surrogate lo
                  | None => false
                  end
              | _ => false
              end
            else false
        | EmptyString => false
        end
      else false
  | EmptyString => false
  end.

(** The string starts with a low surrogate. *)
Definition starts_low (s : string) : bool :=
  match s with
  | String c (String b (String x _)) => low_triple c b x
  | _ => false
  end.

Fixpoint skip_ws (s : string) : string :=
  match s with
  | String c s' =>
      match code c with
      | 9%N | 10%N | 13%N | 32%N => skip_ws s'
      | _ => s
      end
  | EmptyString => s
  end.

(** The integer part of a number: one or more digits, without a leading
    zero unless it is the only digit. *)
Definition valid_int (u : Decimal.uint) : bool :=
  match u with
  | Decimal.Nil => false
  | Decimal.D0 Decimal.Nil => true
  | Decimal.D0 _ => false
  | _ => true
  end.

Definition nonnil (u : Decimal.uint) : bool :=
  match u with
  | Decimal.Nil => false
  | _ => true
  end.

(** The value [m * 10^e]. *)
Definition scale (m e : Z) : number :=
  if 0 <=? e then Int (m * 10 ^ e) else fraction m (Z.to_nat (- e)).

(** A number token without its sign: int frac? exp?. *)
Definition number_magnitude (s : string) : option (number * string) :=
  let (ip, s2) := read_uint s in
  if valid_int ip then
    let after_point :=
      match s2 with
      | String "." r => let (fp, r') := read_uint r in if nonnil fp then Some (fp, r') else None
      | _ => Some (Decimal.Nil, s2)
      end in
    match after_point with
    | None => None
    | Some (fp, s3) =>
        let exponent :=
          match s3 with
          | String c r =>
              if Ascii.eqb c "e" || Ascii.eqb c "E" then
                let (minus, r1) :=
                  match r with
                  | String "-" r' => (true, r')
                  | String "+" r' => (false, r')
                  | _ => (false, r)
                  end in
                let (ep, r2) := read_uint r1 in
                if nonnil ep
                then Some (if minus then - Z.of_uint ep else Z.of_uint ep, r2)
                else None
              else Some (0, s3)
          | EmptyString => Some (0, s3)
          end in
        match exponent with
        | None => None
        | Some (e, s4) =>
            Some (scale (Z.of_uint (Decimal.app ip fp)) (e - Z.of_nat (Decimal.nb_digits fp)), s4)
        end
    end
  else None.

(** A number token: [-]? int frac? exp?. *)
Definition parse_number (s : string) : option (number * string) :=
  match s with
  | String "-" r =>
      match number_magnitude r with
      | Some (m, rest) => Some (num_neg m, rest)
      | None => None
      end
  | _ => number_magnitude s
  end.

(** Property creation in an object: an existing key keeps its place and
    takes the new value; a new array index goes among the indices, in
    increasing order, ahead of the other keys; any other new key goes
    last. *)
Definition is_index (k : string) : option N :=
  let (u, rest) := read_uint k in
  if is_empty rest && valid_int u && (N.of_uint u <? 4294967295)%N
  then Some (N.of_uint u) else None.

Fixpoint replace_prop (k : string) (v : value) (props : list (string * value))
  : list (string * value) :=
  match props with
  | [] => []
  | (k', v') :: rest =>
      if String.eqb k k' then (k', v) :: rest else (k', v') :: replace_prop k v rest
  end.

Fixpoint insert_index (n : N) (k : string) (v : value) (props : list (string * value))
  : list (string * value) :=
  match props with
  | [] => [(k, v)]
  | (k', v') :: rest =>
      match is_index k' with
      | Some m => if (m <? n)%N then (k', v') :: insert_index n k v rest else (k, v) :: props
      | None => (k, v) :: props
      end
  end.

Definition obj_set (props : list (string * value)) (k : string) (v : value)
  : list (string * value) :=
  if has_own k props then replace_prop k v props
  else match is_index k with
       | Some n => insert_index n k v props
       | None => props ++ [(k, v)]
       end.

(** The grammar of values.  [fuel] bounds the depth of the calls: of two
    calls nested one in the other, one at least has read a character, so
    twice the length of the text is enough fuel. *)
Fixpoint parse_value (fuel : nat) (s : string) : option (value * string) :=
  match fuel with
  | O => None
  | S fuel' =>
      match skip_ws s with
      | String "{" r =>
          match skip_ws r with
          | String "}" r' => Some (VObj [], r')
          | _ => parse_members fuel' [] r
          end
      | String "[" r =>
          match skip_ws r with
          | String "]" r' => Some (VArr [], r')
          | _ => parse_elements fuel' [] r
          end
      | String "034" r =>
          match string_body r with
          | Some (str, r') => Some (VStr str, r')
          | None => None
          end
      | String "t" (String "r" (String "u" (String "e" r))) => Some (VBool true, r)
      | String "f" (String "a" (String "l" (String "s" (String "e" r)))) => Some (VBool false, r)
      | String "n" (String "u" (String "l" (String "l" r))) => Some (VNull, r)
      | t =>
          match parse_number t with
          | Some (n, r) => Some (VNum n, r)
          | None => None
          end
      end
  end
with parse_members (fuel : nat) (acc : list (string * value)) (s : string)
  : option (value * string) :=
  match fuel with
  | O => None
  | S fuel' =>
      match skip_ws s with
      | String "034" r =>
          match string_body r with
          | Some (k, r1) =>
              match skip_ws r1 with
              | String ":" r2 =>
                  match parse_value fuel' r2 with
                  | Some (v, r3) =>
                      match skip_ws r3 with
                      | String "," r4 => parse_members fuel' (obj_set acc k v) r4
                      | String "}" r4 => Some (VObj (obj_set acc k v), r4)
                      | _ => None
                      end
                  | None => None
                  end
              | _ => None
              end
          | None => None
          end
      | _ => None
      end
  end
with parse_elements (fuel : nat) (acc : list value) (s : string)
  : option (value * string) :=
  match fuel with
  | O => None
  | S fuel' =>
      match parse_value fuel' s with
      | Some (v, r) =>
          match skip_ws r with
          | String "," r' => parse_elements fuel' (acc ++ [v]) r'
          | String "]" r' => Some (VArr (acc ++ [v]), r')
          | _ => None
          end
      | None => None
      end
  end.

(** [JSON.parse text]: the value of the text, or a [SyntaxError]. *)
Definition JSON_parse (text : string) : result value :=
  match parse_value (S (S (2 * String.length text))) text with
  | Some (v, rest) => if is_empty (skip_ws rest) then Ok v else Throw SyntaxError
  | None => Throw SyntaxError
  end.

(** ** The world around the service *)

(** The types declared by auth.service.ts. *)

Module AuthSession.
Record t : Type := Build {
  email : string;
  idToken : string;
  refreshToken : string;
  expiresAt : number
}.

(** The object literal with the four properties, in the order in which
    [toSession] and [refreshSession] write them. *)
Definition to_value (s : t) : value :=
  VObj [("email", VStr (email s));
        ("idToken", VStr (idToken s));
        ("refreshToken", VStr (refreshToken s));
        ("expiresAt", VNum (expiresAt s))].
End AuthSession.

Module SignInResponse.
Record t : Type := Build {
  idToken : string;
  email : string;
  refreshToken : string;
  expiresIn : string
}.
End SignInResponse.

Module RefreshResponse.
Record t : Type := Build {
  id_token : string;
  refresh_token : string;
  expires_in : string;
  user_id : string
}.
End RefreshResponse.

(** What [HttpClient.post] is given: the endpoint and the body. *)
Inductive request : Type :=
| SignInRequest (url : string) (email password : string) (returnSecureToken : bool)
| RefreshRequest (url : string) (grant_type : string) (refresh_token : value).

(** What the identity service does with a request: after some time it
    answers with a body of the declared type or the request fails. *)
Inductive reply (T : Type) : Type :=
| Replied (body : T)
| Failed (status : Z).

Arguments Replied {T} body.
Arguments Failed {T} status.

Record exchange (T : Type) : Type := Exchange {
  elapsed : N;
  answer : reply T
}.

Arguments Exchange {T} elapsed answer.
Arguments elapsed {T} e.
Arguments answer {T} e.

(** - [session]: the value of the signal [session];
    - [window]: the content of [window.localStorage], [None] when
      [typeof window] is ['undefined'];
    - [clock]: what [Date.now()] returns;
    - [issuer], [refresher]: how the sign-in and the refresh endpoints
      treat the request that is the [n]-th request of the run;
    - [posts]: the requests made so far, oldest first. *)
Record World : Type := mkWorld {
  session : value;
  window : option (gmap string string);
  clock : Z;
  issuer : nat -> exchange SignInResponse.t;
  refresher : nat -> exchange RefreshResponse.t;
  posts : list request
}.

Definition with_session (v : value) (w : World) : World :=
  mkWorld v (window w) (clock w) (issuer w) (refresher w) (posts w).

Definition with_window (ls : option (gmap string string)) (w : World) : World :=
  mkWorld (session w) ls (clock w) (issuer w) (refresher w) (posts w).

Definition with_clock (t : Z) (w : World) : World :=
  mkWorld (session w) (window w) t (issuer w) (refresher w) (posts w).

Definition with_posts (l : list request) (w : World) : World :=
  mkWorld (session w) (window w) (clock w) (issuer w) (refresher w) l.

(** ** Computations: state and exceptions *)

Definition M (A : Type) : Type := World -> result A * World.

Definition ret {A} (a : A) : M A := fun w => (Ok a, w).

Definition throw {A} (e : exn) : M A := fun w => (Throw e, w).

Definition bind {A B} (m : M A) (k : A -> M B) : M B :=
  fun w =>
    match m w with
    | (Ok a, w') => k a w'
    | (Throw e, w') => (Throw e, w')
    end.

Notation "x <- m ;; k" := (bind m (fun x => k))
  (at level 100, m at next level, right associativity).
Notation "m ;; k" := (bind m (fun _ => k))
  (at level 100, right associativity).

(** [try { m } catch { h }]: what [m] did to the world before it threw
    stays done. *)
Definition try_catch {A} (m : M A) (h : M A) : M A :=
  fun w =>
    match m w with
    | (Ok a, w') => (Ok a, w')
    | (Throw _, w') => h w'
    end.

(** *** Calls that are not awaited

    An [async] function that is called runs up to its first [await] and
    hands a promise to its caller: one that is settled if the function
    returned or threw before any [await], one that is pending otherwise.
    [Pending wait rest]: the promise awaited settles [wait] milliseconds
    later, and then [rest] runs, in the world that the page is in by then. *)
Inductive promise (A : Type) : Type :=
| Settled (r : result A)
| Pending (wait : N) (rest : M A).

Arguments Settled {A} r.
Arguments Pending {A} wait rest.

Definition Async (A : Type) : Type := World -> promise A * World.

(** [await p] followed by [k], up to the end of the function: the function
    is suspended even when [p] is settled already. *)
Definition await {A B} (p : promise A) (k : result A -> M B) : promise B :=
  match p with
  | Settled r => Pending 0 (k r)
  | Pending wait rest => Pending wait (fun w => let (r, w') := rest w in k r w')
  end.

(** [void f()]: the call is made and its promise dropped; a rejection
    reaches nobody. *)
Definition void {A} (call : Async A) : M unit :=
  fun w => (Ok tt, snd (call w)).

(** The call and the settlement with nothing in between, as for a caller
    that awaits. *)
Definition awaited {A} (call : Async A) : M A :=
  fun w =>
    match call w with
    | (Settled r, w1) => (r, w1)
    | (Pending wait rest, w1) => rest (with_clock (clock w1 + Z.of_N wait) w1)
    end.

(** The world after the settlement of [p] in the world [w]. *)
Definition settle {A} (p : promise A) (w : World) : World :=
  match p with
  | Settled _ => w
  | Pending _ rest => snd (rest w)
  end.

Definition lift {A} (r : result A) : M A := fun w => (r, w).

Definition get_session : M value := fun w => (Ok (session w), w).

Definition set_session (v : value) : M unit := fun w => (Ok tt, with_session v w).

Definition Date_now : M Z := fun w => (Ok (clock w), w).

Definition typeof_window_undefined : M bool :=
  fun w => (Ok (match window w with None => true | Some _ => false end), w).

Definition localStorage_getItem (k : string) : M (option string) :=
  fun w =>
    match window w with
    | Some ls => (Ok (ls !! k), w)
    | None => (Throw ReferenceError, w)
    end.

Definition localStorage_setItem (k v : string) : M unit :=
  fun w =>
    match window w with
    | Some ls => (Ok tt, with_window (Some (<[k := v]> ls)) w)
    | None => (Throw ReferenceError, w)
    end.

Definition localStorage_removeItem (k : string) : M unit :=
  fun w =>
    match window w with
    | Some ls => (Ok tt, with_window (Some (delete k ls)) w)
    | None => (Throw ReferenceError, w)
    end.

(** [firstValueFrom(this.http.post<T>(endpoint, body))]: the request is
    logged, the time of the exchange passes, and the answer is returned or
    thrown. *)
Definition http_post {T} (oracle : World -> nat -> exchange T) (r : request) : M T :=
  fun w =>
    let x := oracle w (length (posts w)) in
    let w' := with_clock (clock w + Z.of_N (elapsed x)) (with_posts (posts w ++ [r]) w) in
    match answer x with
    | Replied body => (Ok body, w')
    | Failed status => (Throw (HttpErrorResponse status), w')
    end.

(** The same call when it is not awaited to its end: the request leaves at
    once, the answer comes later. *)
Definition http_post_call {T} (oracle : World -> nat -> exchange T) (r : request) : Async T :=
  fun w =>
    let x := oracle w (length (posts w)) in
    (Pending (elapsed x)
       (lift match answer x with
             | Replied body => Ok body
             | Failed status => Throw (HttpErrorResponse status)
             end),
     with_posts (posts w ++ [r]) w).

(** The key of the record in the storage. *)
Definition storageKey : string := "consultores.auth.session".

(** A reading of decimal integers, for the examples: it agrees with the
    conversion of a string to a number on the strings made of an optional
    sign and decimal digits, surrounded by white space, and on the empty
    string. *)
Definition decimal_StringToNumber (s : string) : number :=
  match trim s with
  | EmptyString => Int 0
  | String c r =>
      let (negative, digits) :=
        if Ascii.eqb c "-" then (true, r)
        else if Ascii.eqb c "+" then (false, r) else (false, String c r) in
      let (u, rest) := read_uint digits in
      if nonnil u && is_empty rest
      then Int (if negative then - Z.of_uint u else Z.of_uint u)
      else NaN
  end.

(** ** The client of the consultants backend *)

(** The types declared by consultant.model.ts; a property marked [?] is an
    option, and [Partial] makes each property of the input optional. *)

Module Consultant.
Record t : Type := Build {
  id : string;
  nome : string;
  email : string;
  telefone : option string;
  area : option string;
  dataCadastro : option string
}.
End Consultant.

Module ConsultantInput.
Record t : Type := Build {
  nome : string;
  email : string;
  telefone : option string;
  area : option string
}.
End ConsultantInput.

Module ConsultantUpdate.
Record t : Type := Build {
  id : string;
  nome : option string;
  email : option string;
  telefone : option string;
  area : option string
}.
End ConsultantUpdate.

(** [HttpHeaders], by header name.  The two names that the client sets
    differ by more than their case. *)
Abbreviation HttpHeaders := (gmap string string).

(** What [HttpClient] is given for the backend: the verb, the URL, the
    headers, and the query parameters or the body. *)
Inductive api_request : Type :=
| GET (url : string) (headers : HttpHeaders) (params : list (string * string))
| POST (url : string) (body : ConsultantInput.t) (headers : HttpHeaders)
| PUT (url : string) (body : ConsultantUpdate.t) (headers : HttpHeaders)
| DELETE (url : string) (headers : HttpHeaders) (params : list (string * string)).

(** - [auth]: the world of the authentication service;
    - [backend]: how the backend treats the [n]-th request it receives,
      answering with a JSON body that the client hands over as it is;
    - [calls]: the requests made to the backend so far, oldest first. *)
Record Client : Type := mkClient {
  auth : World;
  backend : nat -> exchange value;
  calls : list api_request
}.

Definition with_auth (w : World) (c : Client) : Client :=
  mkClient w (backend c) (calls c).

Definition CM (A : Type) : Type := Client -> result A * Client.

Definition cret {A} (a : A) : CM A := fun c => (Ok a, c).

Definition cbind {A B} (m : CM A) (k : A -> CM B) : CM B :=
  fun c =>
    match m c with
    | (Ok a, c') => k a c'
    | (Throw e, c') => (Throw e, c')
    end.

Notation "x <-- m ;; k" := (cbind m (fun x => k))
  (at level 100, m at next level, right associativity).

(** A computation of the authentication service, run by the client. *)
Definition of_auth {A} (m : M A) : CM A :=
  fun c => let (r, w) := m (auth c) in (r, with_auth w c).

Definition clift {A} (r : result A) : CM A := fun c => (r, c).

(** A request to the backend: it is logged, the time of the exchange
    passes, and the body is returned or the failure is thrown. *)
Definition http_request (r : api_request) : CM value :=
  fun c =>
    let x := backend c (length (calls c)) in
    let c' := mkClient (with_clock (clock (auth c) + Z.of_N (elapsed x)) (auth c))
                (backend c) (calls c ++ [r]) in
    match answer x with
    | Replied body => (Ok body, c')
    | Failed status => (Throw (HttpErrorResponse status), c')
    end.


(** ** Arrays and strings of the component (app.ts) *)

(** [s.includes(t)]: [t] occurs in [s].  On well-formed strings an
    occurrence among the UTF-8 bytes is an occurrence among the UTF-16 code
    units and conversely. *)
Fixpoint includes (s t : string) : bool :=
  if String.prefix t s then true
  else match s with
       | EmptyString => false
       | String _ s' => includes s' t
       end.

(** [v.k] for any value [v]: reading a property of [null] or of
    [undefined] throws. *)
Definition member (v : value) (k : string) : result value :=
  match v with
  | VUndefined | VNull => Throw TypeError
  | _ => Ok (get v k)
  end.

(** [l.filter(f)] for a callback that may throw: the elements are visited
    in order and the first exception ends the visit. *)
Fixpoint Array_filter {A} (f : A -> result bool) (l : list A) : result (list A) :=
  match l with
  | [] => Ok []
  | x :: rest =>
      match f x with
      | Throw e => Throw e
      | Ok keep =>
          match Array_filter f rest with
          | Throw e => Throw e
          | Ok kept => Ok (if keep then x :: kept else kept)
          end
      end
  end.
(** ** Sample data

    The scenario of the specification: the user [a@b.com], the tokens [T1]
    and [R1] of the sign-in, the tokens [T2] and [R2] of the refresh, a
    lifetime of 3600 seconds. *)

Definition KEY : string := "AIza-sample".

Definition issuer_ok : nat -> exchange SignInResponse.t :=
  fun _ => Exchange 120 (Replied (SignInResponse.Build "T1" "a@b.com" "R1" "3600")).

Definition issuer_down : nat -> exchange SignInResponse.t :=
  fun _ => Exchange 120 (Failed 400).

Definition refresher_ok : nat -> exchange RefreshResponse.t :=
  fun _ => Exchange 250 (Replied (RefreshResponse.Build "T2" "R2" "3600" "uid-1")).

Definition refresher_down : nat -> exchange RefreshResponse.t :=
  fun _ => Exchange 250 (Failed 503).

Definition sample_session (expiresAt : number) : value :=
  AuthSession.to_value (AuthSession.Build "a@b.com" "T1" "R1" expiresAt).

Definition stored (text : string) : gmap string string :=
  {[ storageKey := text ]}.

(** The record that [persistSession] writes for [sample_session (Int 1000000)]. *)
Definition sample_record : string :=
  js "{'email':'a@b.com','idToken':'T1','refreshToken':'R1','expiresAt':1000000}".

(** A record that is valid JSON and holds one of the four properties. *)
Definition partial_record : string := js "{'email':'a@b.com'}".

(** A page at the time [now], holding the session [s] in memory and [ls]
    in its storage, before any request. *)
Definition page (s : value) (ls : gmap string string) (now : Z)
    (iss : nat -> exchange SignInResponse.t) (ref : nat -> exchange RefreshResponse.t) : World :=
  mkWorld s (Some ls) now iss ref [].

(** The same without [window]. *)
Definition windowless (s : value) (now : Z)
    (iss : nat -> exchange SignInResponse.t) (ref : nat -> exchange RefreshResponse.t) : World :=
  mkWorld s None now iss ref [].

(** The backend of the consultants, its address, and the list it sends. *)
Definition API : string := "https://api.sample/consultores".

Definition ana : value :=
  VObj [("id", VStr "c1"); ("nome", VStr "Ana Lima"); ("email", VStr "ana@b.com");
        ("telefone", VStr "555-0101"); ("area", VStr "Fiscal")].

Definition bruno : value :=
  VObj [("id", VStr "c2"); ("nome", VStr "Bruno Reis"); ("email", VStr "bruno@b.com")].

Definition carla : value :=
  VObj [("id", VStr "c3"); ("nome", VStr "Carla Dias"); ("email", VStr "carla@b.com");
        ("area", VStr "Analise")].

(** A consultant whose [area] arrived as a number. *)
Definition dario : value :=
  VObj [("id", VStr "c4"); ("nome", VStr "Dario"); ("email", VStr "dario@b.com");
        ("area", VNum (Int 7))].

Definition backend_ok : nat -> exchange value :=
  fun _ => Exchange 80 (Replied (VArr [ana; bruno; carla])).

Definition backend_refusing : nat -> exchange value :=
  fun _ => Exchange 80 (Failed 401).

(** A client that has made no request yet. *)
Definition client (w : World) (bk : nat -> exchange value) : Client :=
  mkClient w bk [].

(** An issuer that answers with a lifetime that is no number, and a
    refresher that grants thirty seconds. *)
Definition issuer_vague : nat -> exchange SignInResponse.t :=
  fun _ => Exchange 120 (Replied (SignInResponse.Build "T1" "a@b.com" "R1" "soon")).

Definition refresher_short : nat -> exchange RefreshResponse.t :=
  fun _ => Exchange 250 (Replied (RefreshResponse.Build "T2" "R2" "30" "uid-1")).

(** [toLowerCase] on the letters of ASCII, where it changes [A] to [Z]
    and nothing else. *)
Definition ascii_lower (c : ascii) : ascii :=
  if ((65 <=? code c) && (code c <=? 90))%N then ascii_of_N (code c + 32) else c.

Fixpoint ascii_toLowerCase (s : string) : string :=
  match s with
  | EmptyString => EmptyString
  | String c s' => String (ascii_lower c) (ascii_toLowerCase s')
  end.

(** ** The service *)

Section Service.

(** [environment.firebase.apiKey]. *)
Variable apiKey : string.

(** The conversion of a string to a number, [Number(s)]. *)
Variable StringToNumber : string -> number.

(** [ToNumber] on a JSON value; an array or an object goes through its
    string. *)
Definition ToNumber (v : value) : result number :=
  match v with
  | VUndefined => Ok NaN
  | VNull => Ok (Int 0)
  | VBool true => Ok (Int 1)
  | VBool false => Ok (Int 0)
  | VNum n => Ok n
  | VStr s => Ok (StringToNumber s)
  | VArr _ | VObj _ =>
      match ToString v with
      | Ok s => Ok (StringToNumber s)
      | Throw e => Throw e
      end
  end.

Definition assertApiKey : M unit :=
  if is_empty apiKey
  then throw (Error "Firebase API Key não configurada no environment.")
  else ret tt.

Definition persistSession (s : value) : M unit :=
  set_session s ;;
  undefined <- typeof_window_undefined ;;
  if undefined then ret tt
  else if negb (truthy s) then localStorage_removeItem storageKey
  else localStorage_setItem storageKey (default "undefined" (JSON_stringify s)).

Definition restoreSession : M value :=
  undefined <- typeof_window_undefined ;;
  if undefined then ret VNull
  else
    try_catch
      (raw <- localStorage_getItem storageKey ;;
       match raw with
       | Some text => if is_empty text then ret VNull else lift (JSON_parse text)
       | None => ret VNull
       end)
      (ret VNull).

Definition toSession (response : SignInResponse.t) : M value :=
  now <- Date_now ;;
  ret (VObj [("email", VStr (SignInResponse.email response));
             ("idToken", VStr (SignInResponse.idToken response));
             ("refreshToken", VStr (SignInResponse.refreshToken response));
             ("expiresAt",
              VNum (num_add (Int now)
                      (num_mul (StringToNumber (SignInResponse.expiresIn response))
                         (Int 1000))))]).

Definition refreshSession (current : value) : M value :=
  assertApiKey ;;
  let endpoint := "https://securetoken.googleapis.com/v1/token?key=" +:+ apiKey in
  response <- http_post refresher
                (RefreshRequest endpoint "refresh_token" (get current "refreshToken")) ;;
  now <- Date_now ;;
  ret (VObj [("email", get current "email");
             ("idToken", VStr (RefreshResponse.id_token response));
             ("refreshToken", VStr (RefreshResponse.refresh_token response));
             ("expiresAt",
              VNum (num_add (Int now)
                      (num_mul (StringToNumber (RefreshResponse.expires_in response))
                         (Int 1000))))]).

Definition login (email password : string) : M unit :=
  assertApiKey ;;
  let endpoint :=
    "https://identitytoolkit.googleapis.com/v1/accounts:signInWithPassword?key=" +:+ apiKey in
  response <- http_post issuer (SignInRequest endpoint (trim email) (trim password) true) ;;
  s <- toSession response ;;
  persistSession s.

Definition logout : M unit :=
  set_session VNull ;;
  persistSession VNull.

Definition getValidToken : M value :=
  current <- get_session ;;
  if negb (truthy current) then throw (Error "Usuário não autenticado.")
  else
    expiry <- lift (ToNumber (get current "expiresAt")) ;;
    now <- Date_now ;;
    if num_gt (num_sub expiry (Int 60000)) (Int now) then ret (get current "idToken")
    else
      refreshed <- refreshSession current ;;
      persistSession refreshed ;;
      ret (get refreshed "idToken").

(** The validation from its call to the settlement of its promise, as a
    caller that awaited it would see it. *)
Definition ensureSessionValidity : M unit :=
  current <- get_session ;;
  if negb (truthy current) then ret tt
  else
    now <- Date_now ;;
    expiry <- lift (ToNumber (get current "expiresAt")) ;;
    if num_le expiry (Int now)
    then try_catch (refreshed <- refreshSession current ;; persistSession refreshed) logout
    else ret tt.

(** [refreshSession] and [ensureSessionValidity] once more, as calls
    that nobody awaits: the constructor makes such a call.  Each runs to
    its first [await]; [refreshSession_awaited] and
    [ensureSessionValidity_awaited] below relate them to the methods
    above. *)
Definition refreshSession_call (current : value) : Async value :=
  fun w =>
    match assertApiKey w with
    | (Throw e, w1) => (Settled (Throw e), w1)
    | (Ok _, w1) =>
        let endpoint := "https://securetoken.googleapis.com/v1/token?key=" +:+ apiKey in
        let (p, w2) :=
          http_post_call refresher
            (RefreshRequest endpoint "refresh_token" (get current "refreshToken")) w1 in
        (await p
           (fun answered =>
              response <- lift answered ;;
              now <- Date_now ;;
              ret (VObj [("email", get current "email");
                         ("idToken", VStr (RefreshResponse.id_token response));
                         ("refreshToken", VStr (RefreshResponse.refresh_token response));
                         ("expiresAt",
                          VNum (num_add (Int now)
                                  (num_mul (StringToNumber (RefreshResponse.expires_in response))
                                     (Int 1000))))])),
         w2)
    end.

Definition ensureSessionValidity_call : Async unit :=
  fun w =>
    let current := session w in
    if negb (truthy current) then (Settled (Ok tt), w)
    else
      match ToNumber (get current "expiresAt") with
      | Throw e => (Settled (Throw e), w)
      | Ok expiry =>
          if num_le expiry (Int (clock w)) then
            let (p, w1) := refreshSession_call current w in
            (await p
               (fun outcome =>
                  match outcome with
                  | Ok refreshed => try_catch (persistSession refreshed) logout
                  | Throw _ => logout
                  end),
             w1)
          else (Settled (Ok tt), w)
      end.

(** [new AuthService()]: the field initialiser of [session], then the
    constructor, which does not wait for the validation. *)
Definition constructor : M unit :=
  restored <- restoreSession ;;
  set_session restored ;;
  void ensureSessionValidity_call.

(** The two computed signals. *)
Definition isAuthenticated (w : World) : bool := truthy (session w).

Definition userEmail (w : World) : value :=
  let e :=
    match session w with
    | VUndefined | VNull => VUndefined
    | s => get s "email"
    end in
  match e with
  | VUndefined | VNull => VNull
  | _ => e
  end.

(** *** Notions used by the statements *)

Definition signIn_endpoint : string :=
  "https://identitytoolkit.googleapis.com/v1/accounts:signInWithPassword?key=" +:+ apiKey.

Definition refresh_endpoint : string :=
  "https://securetoken.googleapis.com/v1/token?key=" +:+ apiKey.

(** The record kept under the storage key, if any. *)
Definition persisted (w : World) : option string :=
  match window w with
  | Some ls => ls !! storageKey
  | None => None
  end.

(** The value that [restoreSession] answers in the world [w]. *)
Definition restored (w : World) : value :=
  match persisted w with
  | Some text =>
      if is_empty text then VNull
      else match JSON_parse text with
           | Ok v => v
           | Throw _ => VNull
           end
  | None => VNull
  end.

(** The promise of the validation that the constructor starts in [w]. *)
Definition startup (w : World) : promise unit :=
  fst (ensureSessionValidity_call (with_session (restored w) w)).

(** [expiresAt - 60_000 > Date.now()], the test of [getValidToken]. *)
Definition beyond_margin (expiry : number) (now : Z) : bool :=
  num_gt (num_sub expiry (Int 60000)) (Int now).

(** What [persistSession s] leaves in the storage [ls]. *)
Definition write_through (s : value) (ls : gmap string string) : gmap string string :=
  if truthy s then <[storageKey := default "undefined" (JSON_stringify s)]> ls
  else delete storageKey ls.

Definition config_error : exn :=
  Error "Firebase API Key não configurada no environment.".

Definition not_authenticated : exn := Error "Usuário não autenticado.".

(** The world once the request [r] has been made and answered after [ms]
    milliseconds. *)
Definition after_post (r : request) (ms : N) (w : World) : World :=
  with_clock (clock w + Z.of_N ms) (with_posts (posts w ++ [r]) w).

(** The request that carries the refresh token of [current]. *)
Definition refresh_request (current : value) : request :=
  RefreshRequest refresh_endpoint "refresh_token" (get current "refreshToken").

(** The object that [refreshSession] builds at the time [now] from the
    session [current] and the response [r]. *)
Definition session_of_refresh (current : value) (r : RefreshResponse.t) (now : Z) : value :=
  VObj [("email", get current "email");
        ("idToken", VStr (RefreshResponse.id_token r));
        ("refreshToken", VStr (RefreshResponse.refresh_token r));
        ("expiresAt",
         VNum (num_add (Int now)
                 (num_mul (StringToNumber (RefreshResponse.expires_in r)) (Int 1000))))].

(** The object that [toSession] builds at the time [now]. *)
Definition session_of_signIn (r : SignInResponse.t) (now : Z) : value :=
  VObj [("email", VStr (SignInResponse.email r));
        ("idToken", VStr (SignInResponse.idToken r));
        ("refreshToken", VStr (SignInResponse.refreshToken r));
        ("expiresAt",
         VNum (num_add (Int now)
                 (num_mul (StringToNumber (SignInResponse.expiresIn r)) (Int 1000))))].

(** The four properties are there, with the types that [AuthSession]
    declares. *)
Definition populated (v : value) : bool :=
  match get v "email", get v "idToken", get v "refreshToken", get v "expiresAt" with
  | VStr _, VStr _, VStr _, VNum _ => true
  | _, _, _, _ => false
  end.

(** A session, when there is one, is populated. *)
Definition wellformed (w : World) : Prop :=
  truthy (session w) = true -> populated (session w) = true.

(** What can happen to a running service: a call of one of its public
    methods, or time passing. *)
Inductive call : Type :=
| Login (email password : string)
| Logout
| GetValidToken
| Elapse (ms : N).

Definition perform (c : call) (w : World) : World :=
  match c with
  | Login email password => snd (login email password w)
  | Logout => snd (logout w)
  | GetValidToken => snd (getValidToken w)
  | Elapse ms => with_clock (clock w + Z.of_N ms) w
  end.

Definition run (cs : list call) (w : World) : World :=
  fold_left (fun w c => perform c w) cs w.


(** The text that [JSON.stringify] gives for a session with the four
    properties, three strings and an integer. *)
Definition session_text (e t r : string) (z : Z) : string :=
  String "{" (quote_onto "email" (String ":" (quote_onto e (String ","
    (quote_onto "idToken" (String ":" (quote_onto t (String ","
      (quote_onto "refreshToken" (String ":" (quote_onto r (String ","
        (quote_onto "expiresAt" (String ":" (string_of_Z z +:+ "}"))))))))))))))).

(** The same for an [expiresAt] that is [NaN], which is written [null]. *)
Definition session_text_null (e t r : string) : string :=
  String "{" (quote_onto "email" (String ":" (quote_onto e (String ","
    (quote_onto "idToken" (String ":" (quote_onto t (String ","
      (quote_onto "refreshToken" (String ":" (quote_onto r (String ","
        (quote_onto "expiresAt" (String ":" "null}")))))))))))))).


(** A request of the service: a sign-in or a refresh, sent to the endpoint
    of that exchange under the configured API key. *)
Definition identity_request (r : request) : Prop :=
  match r with
  | SignInRequest url _ _ returnSecureToken =>
      url = signIn_endpoint /\ returnSecureToken = true
  | RefreshRequest url grant_type _ =>
      url = refresh_endpoint /\ grant_type = "refresh_token"
  end.

(** ** The consultant service (consultant.service.ts) *)

(** [environment.apiBaseUrl]. *)
Variable apiBaseUrl : string.

Definition apiUrl : string := apiBaseUrl.

Definition buildHeaders : CM HttpHeaders :=
  let headers : HttpHeaders := <["Content-Type" := "application/json"]> ∅ in
  token <-- of_auth getValidToken ;;
  if truthy token then
    text <-- clift (ToString token) ;;
    cret (<["Authorization" := "Bearer " +:+ text]> headers)
  else cret headers.

(** One subscription to the observable that [withAuth] returns: the
    headers are built, then the request of [requestFactory] is made. *)
Definition withAuth {T} (requestFactory : HttpHeaders -> CM T) : CM T :=
  headers <-- buildHeaders ;;
  requestFactory headers.

Definition ConsultantService_list : CM value :=
  withAuth (fun headers => http_request (GET apiUrl headers [])).

Definition ConsultantService_getById (id : string) : CM value :=
  withAuth (fun headers => http_request (GET apiUrl headers [("id", id)])).

Definition ConsultantService_create (payload : ConsultantInput.t) : CM value :=
  withAuth (fun headers => http_request (POST apiUrl payload headers)).

Definition ConsultantService_update (payload : ConsultantUpdate.t) : CM value :=
  withAuth (fun headers => http_request (PUT apiUrl payload headers)).

Definition ConsultantService_remove (id : string) : CM value :=
  withAuth (fun headers => http_request (DELETE apiUrl headers [("id", id)])).

(** The five methods, to speak of all of them at once. *)
Inductive operation : Type :=
| OpList
| OpGetById (id : string)
| OpCreate (payload : ConsultantInput.t)
| OpUpdate (payload : ConsultantUpdate.t)
| OpRemove (id : string).

Definition invoke (o : operation) : CM value :=
  match o with
  | OpList => ConsultantService_list
  | OpGetById id => ConsultantService_getById id
  | OpCreate payload => ConsultantService_create payload
  | OpUpdate payload => ConsultantService_update payload
  | OpRemove id => ConsultantService_remove id
  end.

(** The request that the method makes once it has the headers. *)
Definition request_of (o : operation) (headers : HttpHeaders) : api_request :=
  match o with
  | OpList => GET apiUrl headers []
  | OpGetById id => GET apiUrl headers [("id", id)]
  | OpCreate payload => POST apiUrl payload headers
  | OpUpdate payload => PUT apiUrl payload headers
  | OpRemove id => DELETE apiUrl headers [("id", id)]
  end.

Definition json_headers : HttpHeaders := <["Content-Type" := "application/json"]> ∅.

Definition bearer_headers (token : string) : HttpHeaders :=
  <["Authorization" := "Bearer " +:+ token]> json_headers.

(** The client once the request [r] has been made and answered after [ms]
    milliseconds. *)
Definition after_call (r : api_request) (ms : N) (c : Client) : Client :=
  mkClient (with_clock (clock (auth c) + Z.of_N ms) (auth c)) (backend c) (calls c ++ [r]).


(** ** The list that the component shows (app.ts) *)

(** [String.prototype.toLowerCase], which follows the case tables of
    Unicode. *)
Variable toLowerCase : string -> string.

(** [values.some((value) => value.toLowerCase().includes(term))]: the
    visit stops at the first value that matches; a value that is no string
    has no method [toLowerCase], and calling it throws. *)
Fixpoint some_includes (term : string) (values : list value) : result bool :=
  match values with
  | [] => Ok false
  | VStr s :: rest =>
      if includes (toLowerCase s) term then Ok true else some_includes term rest
  | _ :: _ => Throw TypeError
  end.

(** The callback of the filter in [filteredConsultants]. *)
Definition shown (term : string) (consultant : value) : result bool :=
  match member consultant "nome" with
  | Throw e => Throw e
  | Ok nome =>
      match member consultant "email" with
      | Throw e => Throw e
      | Ok email =>
          match member consultant "area" with
          | Throw e => Throw e
          | Ok area => some_includes term (List.filter truthy [nome; email; area])
          end
      end
  end.

(** The computed signal, as a function of the two signals that it reads.
    [consultants] holds what the backend sent, an array of any values. *)
Definition filteredConsultants (filterTerm : string) (consultants : list value)
  : result (list value) :=
  let term := toLowerCase (trim filterTerm) in
  if is_empty term then Ok consultants
  else Array_filter (shown term) consultants.

(** A consultant that the search can read: not [null] nor [undefined],
    with each of the three fields searched a string or falsy. *)
Definition text_or_falsy (v : value) : bool :=
  match v with
  | VStr _ => true
  | _ => negb (truthy v)
  end.

Definition searchable (consultant : value) : bool :=
  match consultant with
  | VUndefined | VNull => false
  | _ => text_or_falsy (get consultant "nome")
         && text_or_falsy (get consultant "email")
         && text_or_falsy (get consultant "area")
  end.

(** A non-empty string in which [term] occurs, letter case apart. *)
Definition value_matches (term : string) (v : value) : bool :=
  match v with
  | VStr s => negb (is_empty s) && includes (toLowerCase s) term
  | _ => false
  end.

Definition consultant_matches (term : string) (consultant : value) : bool :=
  value_matches term (get consultant "nome")
  || value_matches term (get consultant "email")
  || value_matches term (get consultant "area").

(** A consultant on which the search stumbles: [null], [undefined], or one
    whose first truthy field among the three is no string. *)
Definition unreadable (consultant : value) : bool :=
  match consultant with
  | VUndefined | VNull => true
  | _ =>
      match List.filter truthy
              [get consultant "nome"; get consultant "email"; get consultant "area"] with
      | VStr _ :: _ => false
      | _ :: _ => true
      | [] => false
      end
  end.
(** ** The JSON codec *)

Example parse_samples :
  (JSON_parse (js "01"), JSON_parse "", JSON_parse " 12 ", JSON_parse "12 3",
   JSON_parse "[1,]", JSON_parse "{}x", JSON_parse "-", JSON_parse "1.", JSON_parse "1e",
   JSON_parse "tru", JSON_parse ".5")
  = (Throw SyntaxError, Throw SyntaxError, Ok (VNum (Int 12)), Throw SyntaxError,
     Throw SyntaxError, Throw SyntaxError, Throw SyntaxError, Throw SyntaxError,
     Throw SyntaxError, Throw SyntaxError, Throw SyntaxError).
Proof. vm_compute. reflexivity. Qed.

Example parse_number_samples :
  (JSON_parse "-0", JSON_parse "-12e1", JSON_parse "150e-1", JSON_parse "[-3]",
   JSON_parse "1.5", JSON_parse "1E-1", JSON_parse "1700000000000.5",
   JSON_parse "-0.250", JSON_parse "1.5e+3", JSON_parse "0.0")
  = (Ok (VNum (Int 0)), Ok (VNum (Int (-120))), Ok (VNum (Int 15)),
     Ok (VArr [VNum (Int (-3))]),
     Ok (VNum (Frac 15 1)), Ok (VNum (Frac 1 1)), Ok (VNum (Frac 17000000000005 1)),
     Ok (VNum (Frac (-25) 2)), Ok (VNum (Int 1500)), Ok (VNum (Int 0))).
Proof. vm_compute. reflexivity. Qed.

(** An escaped surrogate pair is one character of four bytes; a surrogate
    escaped alone is kept. *)
Example parse_surrogate_samples :
  JSON_parse (js "'\ud83d\ude00'") =
    Ok (VStr (String "240" (String "159" (String "152" (String "128" EmptyString))))) /\
  JSON_parse (js "'\ud83d'") =
    Ok (VStr (String "237" (String "160" (String "189" EmptyString)))) /\
  JSON_parse (js "'\ude00x'") =
    Ok (VStr (String "237" (String "184" (String "128" "x")))) /\
  JSON_parse (js "'\ud83d\u0041'") =
    Ok (VStr (String "237" (String "160" (String "189" "A")))).
Proof. vm_compute. auto. Qed.

(** [JSON.stringify] escapes a surrogate that stands alone and leaves a
    pair as it is; both come back. *)
Example stringify_surrogate_samples :
  let high := String "237" (String "160" (String "189" EmptyString)) in
  let low := String "237" (String "184" (String "128" EmptyString)) in
  let pair := String "240" (String "159" (String "152" (String "128" EmptyString))) in
  JSON_stringify (VStr (high +:+ "x")) = Some (js "'\ud83dx'") /\
  JSON_stringify (VStr (low +:+ high)) = Some (js "'\ude00\ud83d'") /\
  JSON_stringify (VStr pair) = Some (String DQUOTE (pair +:+ String DQUOTE EmptyString)) /\
  JSON_parse (js "'\ude00\ud83d'") = Ok (VStr (low +:+ high)).
Proof. vm_compute. auto. Qed.

Example number_samples :
  (number_to_string (Frac 15 1), number_to_string (Frac 1 6), number_to_string (Frac 1 7),
   number_to_string (Frac (-25) 2), number_to_string (Frac 123456 3),
   number_to_string (Frac 15 8), JSON_stringify (VArr [VNum (Frac 5 1); VNum NaN]))
  = ("1.5", "0.000001", "1e-7", "-0.25", "123.456", "1.5e-7", Some "[0.5,null]") /\
  (num_add (Frac 5 1) (Frac 5 1), num_sub (Int 2) (Frac 5 1), num_mul (Frac 15 1) (Int 1000),
   num_mul (Frac 5 1) (Frac 5 1), num_add NaN (Frac 5 1))
  = (Int 1, Frac 15 1, Int 1500, Frac 25 2, NaN) /\
  (num_le (Frac 15 1) (Int 2), num_gt (Frac 15 1) (Int 2), num_le (Frac 15 1) (Frac 15 1),
   num_gt (Frac 15 1) (Frac 149 2), num_le NaN (Frac 5 1), truthy (VNum (Frac 5 1)))
  = (true, false, true, true, false, true).
Proof. vm_compute. auto. Qed.

Lemma append_cons (c : ascii) (s t : string) : String c s +:+ t = String c (s +:+ t).
Proof. reflexivity. Qed.

Lemma append_assoc' (a b c : string) : (a +:+ b) +:+ c = a +:+ (b +:+ c).
Proof. induction a as [|x a IH]; [reflexivity|]. rewrite !append_cons, IH. reflexivity. Qed.

Lemma string_body_quote_char (c : ascii) (tail : string) :
  string_body (quote_char c tail) = push c (string_body tail).
Proof.
  destruct c as [[] [] [] [] [] [] [] []]; reflexivity.
Qed.

Lemma quote_char_app (c : ascii) (t1 t2 : string) :
  quote_char c t1 +:+ t2 = quote_char c (t1 +:+ t2).
Proof.
  destruct c as [[] [] [] [] [] [] [] []]; reflexivity.
Qed.

Lemma quote_body_unfold (c b x : ascii) (s3 tail : string) :
  quote_body (String c (String b (String x s3))) tail =
  if high_triple c b x then
    match s3 with
    | String c' (String b' (String x' s6)) =>
        if low_triple c' b' x' then
          String c (String b (String x
            (String c' (String b' (String x' (quote_body s6 tail))))))
        else unicode_escape (surrogate_unit b x) (quote_body s3 tail)
    | _ => unicode_escape (surrogate_unit b x) (quote_body s3 tail)
    end
  else if low_triple c b x then
    unicode_escape (surrogate_unit b x) (quote_body s3 tail)
  else quote_char c (quote_body (String b (String x s3)) tail).
Proof. reflexivity. Qed.

Lemma unicode_escape_app (u : N) (t1 t2 : string) :
  unicode_escape u t1 +:+ t2 = unicode_escape u (t1 +:+ t2).
Proof. reflexivity. Qed.

Lemma quote_body_app_le (n : nat) (s t1 t2 : string) :
  (String.length s <= n)%nat ->
  quote_body s t1 +:+ t2 = quote_body s (t1 +:+ t2).
Proof.
  revert s. induction n as [|n IH]; intros s Hn.
  - destruct s; [reflexivity|cbn [String.length] in Hn; lia].
  - destruct s as [|c [|b [|x s3]]]; [reflexivity|apply quote_char_app| |].
    + change (quote_char c (quote_char b t1) +:+ t2 = quote_char c (quote_char b (t1 +:+ t2))).
      rewrite !quote_char_app. reflexivity.
    + cbn [String.length] in Hn. rewrite !quote_body_unfold.
      destruct (high_triple c b x).
      * destruct s3 as [|c' [|b' [|x' s6]]];
          try (rewrite unicode_escape_app, IH by (cbn [String.length]; lia); reflexivity).
        cbn [String.length] in Hn.
        destruct (low_triple c' b' x').
        -- rewrite !append_cons, IH by lia. reflexivity.
        -- rewrite unicode_escape_app, IH by (cbn [String.length]; lia). reflexivity.
      * destruct (low_triple c b x).
        -- rewrite unicode_escape_app, IH by lia. reflexivity.
        -- rewrite quote_char_app, IH by (cbn [String.length]; lia). reflexivity.
Qed.

Lemma quote_body_app (s t1 t2 : string) :
  quote_body s t1 +:+ t2 = quote_body s (t1 +:+ t2).
Proof. apply (quote_body_app_le (String.length s)). lia. Qed.

Lemma quote_app (s t : string) : quote s +:+ t = quote_onto s t.
Proof.
  unfold quote, quote_onto. rewrite append_cons, quote_body_app. reflexivity.
Qed.

(** *** Surrogates *)

Lemma hex_value_hex_digit (n : N) : (n < 16)%N -> hex_value (hex_digit n) = Some n.
Proof.
  intros H. destruct n as [|p]; [reflexivity|].
  do 4 (destruct p as [p|p|]; try reflexivity; try lia).
Qed.

Lemma hex4_unicode_escape (u : N) :
  (u < 65536)%N ->
  hex4 (hex_digit (u / 4096)) (hex_digit ((u / 256) mod 16))
    (hex_digit ((u / 16) mod 16)) (hex_digit (u mod 16)) = Some u.
Proof.
  clear apiKey StringToNumber apiBaseUrl toLowerCase.
  intros H. unfold hex4.
  rewrite !hex_value_hex_digit by (zify; Z.to_euclidean_division_equations; lia).
  f_equal. zify. Z.to_euclidean_division_equations. lia.
Qed.

Lemma second_range (b : ascii) :
  (high_second b = true -> (160 <= code b <= 175)%N) /\
  (low_second b = true -> (176 <= code b <= 191)%N) /\
  (continuation b = true -> (128 <= code b <= 191)%N).
Proof.
  unfold high_second, low_second, continuation.
  rewrite !andb_true_iff, !N.leb_le. auto.
Qed.

Lemma byte_code (c : ascii) : byte (code c) = c.
Proof. apply ascii_N_embedding. Qed.

Lemma utf8_surrogate_unit (b x : ascii) (tail : string) :
  high_second b = true \/ low_second b = true ->
  continuation x = true ->
  utf8 (surrogate_unit b x) tail = String "237" (String b (String x tail)).
Proof.
  clear apiKey StringToNumber apiBaseUrl toLowerCase.
  intros Hb Hx. apply second_range in Hx.
  assert (160 <= code b <= 191)%N as Hr
    by (destruct Hb as [Hb|Hb]; apply second_range in Hb; lia).
  unfold utf8, surrogate_unit.
  replace (_ <? 128)%N with false by (symmetry; apply N.ltb_ge; lia).
  replace (_ <? 2048)%N with false by (symmetry; apply N.ltb_ge; lia).
  replace (_ <? 65536)%N with true by (symmetry; apply N.ltb_lt; lia).
  replace (224 + _ / 4096)%N with 237%N
    by (zify; Z.to_euclidean_division_equations; lia).
  replace (128 + (_ / 64) mod 64)%N with (code b)
    by (zify; Z.to_euclidean_division_equations; lia).
  replace (128 + _ mod 64)%N with (code x)
    by (zify; Z.to_euclidean_division_equations; lia).
  rewrite !byte_code. reflexivity.
Qed.

Lemma surrogate_unit_kind (b x : ascii) :
  continuation x = true ->
  (high_second b = true ->
   (surrogate_unit b x < 65536)%N /\
   is_high_surrogate (surrogate_unit b x) = true /\
   is_low_surrogate (surrogate_unit b x) = false) /\
  (low_second b = true ->
   (surrogate_unit b x < 65536)%N /\
   is_high_surrogate (surrogate_unit b x) = false /\
   is_low_surrogate (surrogate_unit b x) = true).
Proof.
  intros Hx. apply second_range in Hx.
  unfold is_high_surrogate, is_low_surrogate, surrogate_unit.
  split; intros Hb; apply second_range in Hb.
  - split; [lia|]. split.
    + apply andb_true_iff. rewrite !N.leb_le. lia.
    + apply andb_false_iff. left. apply N.leb_gt. lia.
  - split; [lia|]. split.
    + apply andb_false_iff. right. apply N.leb_gt. lia.
    + apply andb_true_iff. rewrite !N.leb_le. lia.
Qed.

Lemma string_body_escape_unfold (h1 h2 h3 h4 : ascii) (rest2 : string) :
  string_body (String BACKSLASH (String "u"
                 (String h1 (String h2 (String h3 (String h4 rest2)))))) =
  match hex4 h1 h2 h3 h4 with
  | None => None
  | Some u =>
      if is_high_surrogate u then
        match rest2 with
        | String b (String x (String l1 (String l2 (String l3 (String l4 rest3))))) =>
            if Ascii.eqb b BACKSLASH && Ascii.eqb x "u" then
              match hex4 l1 l2 l3 l4 with
              | Some lo =>
                  if is_low_surrogate lo
                  then push_utf8 (65536 + (u - 55296) * 1024 + (lo - 56320))%N
                         (string_body rest3)
                  else push_utf8 u (string_body rest2)
              | None => push_utf8 u (string_body rest2)
              end
            else push_utf8 u (string_body rest2)
        | _ => push_utf8 u (string_body rest2)
        end
      else push_utf8 u (string_body rest2)
  end.
Proof. reflexivity. Qed.

(** An escaped surrogate is read alone when it is a low one, or when no
    escape of a low one follows it. *)
Lemma string_body_unicode_escape (u : N) (rest2 : string) :
  (u < 65536)%N ->
  is_high_surrogate u = false \/ low_escape_ahead rest2 = false ->
  string_body (unicode_escape u rest2) = push_utf8 u (string_body rest2).
Proof.
  intros Hu H. unfold unicode_escape.
  rewrite string_body_escape_unfold, (hex4_unicode_escape u Hu).
  destruct (is_high_surrogate u); [|reflexivity].
  destruct H as [H|H]; [discriminate|].
  destruct rest2 as [|b [|x [|l1 [|l2 [|l3 [|l4 rest3]]]]]]; try reflexivity.
  unfold low_escape_ahead in H.
  destruct (Ascii.eqb b BACKSLASH); [|reflexivity].
  destruct (Ascii.eqb x "u"); [|reflexivity].
  cbn [andb]. destruct (hex4 l1 l2 l3 l4) as [lo|]; [|reflexivity].
  rewrite H. reflexivity.
Qed.

Lemma low_escape_ahead_quote_char (c : ascii) (tail : string) :
  low_escape_ahead (quote_char c tail) = false.
Proof.
  destruct c as [[] [] [] [] [] [] [] []]; reflexivity.
Qed.

Lemma low_escape_ahead_unicode_escape (u : N) (tail : string) :
  (u < 65536)%N -> low_escape_ahead (unicode_escape u tail) = is_low_surrogate u.
Proof.
  intros Hu. unfold unicode_escape, low_escape_ahead.
  change (Ascii.eqb BACKSLASH BACKSLASH) with true.
  change (Ascii.eqb "u" "u") with true. cbv iota.
  rewrite (hex4_unicode_escape u Hu). reflexivity.
Qed.

Lemma triple_first (c b x : ascii) :
  high_triple c b x = true \/ low_triple c b x = true -> c = "237"%char.
Proof.
  unfold high_triple, low_triple. rewrite !andb_true_iff.
  intros [[[H _] _]|[[H _] _]]; apply Ascii.eqb_eq in H; exact H.
Qed.

(** What [quote_body] writes starts with the escape of a low surrogate
    only when the string starts with a low surrogate. *)
Lemma low_escape_ahead_quote_body (s tail : string) :
  starts_low s = false ->
  low_escape_ahead (quote_body s (String DQUOTE tail)) = false.
Proof.
  destruct s as [|c [|b [|x s3]]]; intros Hs;
    [reflexivity|apply low_escape_ahead_quote_char..|].
  cbn [starts_low] in Hs. rewrite quote_body_unfold, Hs.
  destruct (high_triple c b x) eqn:Hh; [|apply low_escape_ahead_quote_char].
  assert (low_escape_ahead
            (unicode_escape (surrogate_unit b x) (quote_body s3 (String DQUOTE tail))) = false)
    as Hlone.
  { unfold high_triple in Hh. apply andb_true_iff in Hh as [Hh Hx].
    apply andb_true_iff in Hh as [_ Hb].
    destruct (surrogate_unit_kind b x Hx) as [Hk _].
    destruct (Hk Hb) as (Hu & _ & Hlow).
    rewrite (low_escape_ahead_unicode_escape _ _ Hu). exact Hlow. }
  destruct s3 as [|c' [|b' [|x' s6]]]; try exact Hlone.
  destruct (low_triple c' b' x'); [|exact Hlone].
  rewrite (triple_first c b x (or_introl Hh)). reflexivity.
Qed.

Lemma quote_char_raw (c : ascii) (tail : string) :
  (128 <=? code c)%N = true -> quote_char c tail = String c tail.
Proof.
  destruct c as [[] [] [] [] [] [] [] []]; intros H; try reflexivity; discriminate H.
Qed.

Lemma string_body_raw (c : ascii) (tail : string) :
  (128 <= code c)%N -> string_body (String c tail) = push c (string_body tail).
Proof.
  intros H. rewrite <- (quote_char_raw c tail) by (apply N.leb_le; exact H).
  apply string_body_quote_char.
Qed.

Lemma triple_bytes (c b x : ascii) :
  high_triple c b x = true \/ low_triple c b x = true ->
  (128 <= code c)%N /\ (128 <= code b)%N /\ (128 <= code x)%N /\
  continuation x = true.
Proof.
  intros H. rewrite (triple_first c b x H).
  unfold high_triple, low_triple in H. rewrite !andb_true_iff in H.
  assert ((high_second b = true \/ low_second b = true) /\ continuation x = true)
    as [Hb Hx] by (destruct H as [[[_ ?] ?]|[[_ ?] ?]]; auto).
  pose proof (proj2 (proj2 (second_range x)) Hx).
  assert (160 <= code b)%N by (destruct Hb as [Hb|Hb]; apply second_range in Hb; lia).
  repeat split; try lia; [|exact Hx]. vm_compute. discriminate.
Qed.

(** Reading an escaped surrogate that stands alone gives its bytes back. *)
Lemma string_body_lone (c b x : ascii) (s3 tail : string) :
  high_triple c b x = true /\ starts_low s3 = false \/ low_triple c b x = true ->
  string_body (quote_body s3 (String DQUOTE tail)) = Some (s3, tail) ->
  string_body (unicode_escape (surrogate_unit b x) (quote_body s3 (String DQUOTE tail))) =
  Some (String c (String b (String x s3)), tail).
Proof.
  intros H IH.
  assert (high_triple c b x = true \/ low_triple c b x = true) as Ht
    by (destruct H as [[? _]|?]; auto).
  destruct (triple_bytes c b x Ht) as (_ & _ & _ & Hx).
  destruct (surrogate_unit_kind b x Hx) as [Hhigh Hlow].
  rewrite (triple_first c b x Ht).
  unfold high_triple, low_triple in H. rewrite !andb_true_iff in H.
  destruct H as [[[[_ Hb] _] Hs]|[[_ Hb] _]].
  - destruct (Hhigh Hb) as (Hu & _ & _).
    rewrite string_body_unicode_escape, IH;
      [|exact Hu|right; apply low_escape_ahead_quote_body; exact Hs].
    cbn [push_utf8]. rewrite utf8_surrogate_unit by auto. reflexivity.
  - destruct (Hlow Hb) as (Hu & Hnot & _).
    rewrite string_body_unicode_escape, IH; [|exact Hu|left; exact Hnot].
    cbn [push_utf8]. rewrite utf8_surrogate_unit by auto. reflexivity.
Qed.

Lemma string_body_quote_body_le (n : nat) (s tail : string) :
  (String.length s <= n)%nat ->
  string_body (quote_body s (String DQUOTE tail)) = Some (s, tail).
Proof.
  revert s. induction n as [|n IH]; intros s Hn.
  - destruct s; [reflexivity|cbn [String.length] in Hn; lia].
  - destruct s as [|c [|b [|x s3]]]; [reflexivity| | |].
    + change (string_body (quote_char c (String DQUOTE tail)) = Some (String c EmptyString, tail)).
      rewrite string_body_quote_char. reflexivity.
    + change (string_body (quote_char c (quote_char b (String DQUOTE tail)))
              = Some (String c (String b EmptyString), tail)).
      rewrite !string_body_quote_char. reflexivity.
    + cbn [String.length] in Hn. rewrite quote_body_unfold.
      destruct (high_triple c b x) eqn:Hh.
      * assert (starts_low s3 = false ->
                string_body (unicode_escape (surrogate_unit b x)
                               (quote_body s3 (String DQUOTE tail))) =
                Some (String c (String b (String x s3)), tail)) as Hlone.
        { intros Hs. apply string_body_lone; [left; auto|]. apply IH. lia. }
        destruct s3 as [|c' [|b' [|x' s6]]]; try (apply Hlone; reflexivity).
        destruct (low_triple c' b' x') eqn:Hl; [|apply Hlone; exact Hl].
        cbn [String.length] in Hn.
        destruct (triple_bytes c b x (or_introl Hh)) as (Hc & Hb & Hx & _).
        destruct (triple_bytes c' b' x' (or_intror Hl)) as (Hc' & Hb' & Hx' & _).
        rewrite !string_body_raw by assumption. rewrite IH by lia. reflexivity.
      * destruct (low_triple c b x) eqn:Hl.
        -- apply string_body_lone; [right; exact Hl|]. apply IH. lia.
        -- rewrite string_body_quote_char, IH by (cbn [String.length]; lia). reflexivity.
Qed.

Lemma string_body_quote_body (s tail : string) :
  string_body (quote_body s (String DQUOTE tail)) = Some (s, tail).
Proof. apply (string_body_quote_body_le (String.length s)). lia. Qed.

Lemma read_uint_string_of_uint (d : Decimal.uint) (t : string) :
  read_uint (string_of_uint d +:+ String "}" t) = (d, String "}" t).
Proof.
  induction d; cbn [string_of_uint]; [reflexivity | ..];
    rewrite append_cons; cbn [read_uint digit]; rewrite IHd; reflexivity.
Qed.

Lemma valid_int_unorm (d : Decimal.uint) : valid_int (Decimal.unorm d) = true.
Proof.
  unfold Decimal.unorm.
  induction d; cbn [Decimal.nzhead]; try reflexivity. exact IHd.
Qed.

Lemma to_uint_unorm (p : positive) : Decimal.unorm (Pos.to_uint p) = Pos.to_uint p.
Proof.
  rewrite <- (DecimalPos.Unsigned.to_of (Pos.to_uint p)).
  rewrite DecimalPos.Unsigned.of_to. reflexivity.
Qed.

Lemma valid_int_to_uint (p : positive) : valid_int (Pos.to_uint p) = true.
Proof. rewrite <- to_uint_unorm. apply valid_int_unorm. Qed.

Lemma number_magnitude_digits (d : Decimal.uint) (t : string) :
  valid_int d = true ->
  number_magnitude (string_of_uint d +:+ String "}" t) = Some (Int (Z.of_uint d), String "}" t).
Proof.
  intros Hd. unfold number_magnitude.
  rewrite read_uint_string_of_uint, Hd. cbn beta iota.
  rewrite DecimalFacts.app_nil_r.
  transitivity (Some (Int (Z.of_uint d * 1), String "}" t)); [reflexivity|].
  rewrite Z.mul_1_r. reflexivity.
Qed.

Lemma parse_number_digits (d : Decimal.uint) (t : string) :
  valid_int d = true ->
  parse_number (string_of_uint d +:+ String "}" t) = Some (Int (Z.of_uint d), String "}" t).
Proof.
  intros Hd.
  assert (parse_number (string_of_uint d +:+ String "}" t)
          = number_magnitude (string_of_uint d +:+ String "}" t)) as ->.
  { destruct d; reflexivity. }
  rewrite number_magnitude_digits by exact Hd. reflexivity.
Qed.

Lemma of_uint_to_uint (p : positive) : Z.of_uint (Pos.to_uint p) = Z.pos p.
Proof. unfold Z.of_uint. rewrite DecimalPos.Unsigned.of_to. reflexivity. Qed.

Lemma parse_number_string_of_Z (z : Z) (t : string) :
  parse_number (string_of_Z z +:+ String "}" t) = Some (Int z, String "}" t).
Proof.
  destruct z as [|p|p]; unfold string_of_Z; cbn [Z.to_int].
  - reflexivity.
  - rewrite parse_number_digits by apply valid_int_to_uint.
    rewrite of_uint_to_uint. reflexivity.
  - rewrite append_cons. cbn [parse_number].
    rewrite number_magnitude_digits by apply valid_int_to_uint.
    rewrite of_uint_to_uint. reflexivity.
Qed.

(** The first character of a number decides that the value is a number. *)
Lemma parse_value_number (f : nat) (z : Z) (t : string) :
  parse_value (S f) (string_of_Z z +:+ String "}" t) = Some (VNum (Int z), String "}" t).
Proof.
  assert (parse_value (S f) (string_of_Z z +:+ String "}" t)
          = match parse_number (string_of_Z z +:+ String "}" t) with
            | Some (n, r) => Some (VNum n, r)
            | None => None
            end) as ->.
  { destruct z as [|p|p]; unfold string_of_Z; cbn [Z.to_int].
    - reflexivity.
    - destruct (Pos.to_uint p); reflexivity.
    - reflexivity. }
  rewrite parse_number_string_of_Z. reflexivity.
Qed.

Lemma parse_value_string (f : nat) (s rest : string) :
  parse_value (S f) (quote_onto s rest) = Some (VStr s, rest).
Proof.
  unfold quote_onto.
  change (parse_value (S f) (String DQUOTE (quote_body s (String DQUOTE rest))))
    with (match string_body (quote_body s (String DQUOTE rest)) with
          | Some (str, r') => Some (VStr str, r')
          | None => None
          end).
  rewrite string_body_quote_body. reflexivity.
Qed.

Lemma parse_members_unfold (n : nat) (acc : list (string * value)) (X : string) :
  parse_members (S n) acc (String DQUOTE X) =
  match string_body X with
  | Some (k, r1) =>
      match skip_ws r1 with
      | String ":" r2 =>
          match parse_value n r2 with
          | Some (v, r3) =>
              match skip_ws r3 with
              | String "," r4 => parse_members n (obj_set acc k v) r4
              | String "}" r4 => Some (VObj (obj_set acc k v), r4)
              | _ => None
              end
          | None => None
          end
      | _ => None
      end
  | None => None
  end.
Proof. reflexivity. Qed.

Lemma parse_member_string (f : nat) (acc : list (string * value)) (k s rest : string) :
  parse_members (S (S f)) acc (quote_onto k (String ":" (quote_onto s (String "," rest)))) =
  parse_members (S f) (obj_set acc k (VStr s)) rest.
Proof.
  unfold quote_onto at 1. rewrite parse_members_unfold, string_body_quote_body.
  change (skip_ws (String ":" ?y)) with (String ":" y). cbv beta iota.
  rewrite parse_value_string.
  reflexivity.
Qed.

Lemma parse_member_last_number (f : nat) (acc : list (string * value)) (k : string) (z : Z)
    (rest : string) :
  parse_members (S (S f)) acc (quote_onto k (String ":" (string_of_Z z +:+ String "}" rest))) =
  Some (VObj (obj_set acc k (VNum (Int z))), rest).
Proof.
  unfold quote_onto at 1. rewrite parse_members_unfold, string_body_quote_body.
  change (skip_ws (String ":" ?y)) with (String ":" y). cbv beta iota.
  rewrite parse_value_number.
  reflexivity.
Qed.

Lemma JSON_stringify_session (e t r : string) (z : Z) :
  JSON_stringify (AuthSession.to_value (AuthSession.Build e t r (Int z))) =
  Some (session_text e t r z).
Proof.
  unfold AuthSession.to_value. cbn [AuthSession.email AuthSession.idToken AuthSession.refreshToken AuthSession.expiresAt].
  cbn [JSON_stringify join_with]. f_equal.
  rewrite !append_assoc', !quote_app. reflexivity.
Qed.

Lemma JSON_parse_session (e t r : string) (z : Z) :
  JSON_parse (session_text e t r z) =
  Ok (AuthSession.to_value (AuthSession.Build e t r (Int z))).
Proof.
  unfold JSON_parse.
  assert (exists f, S (S (2 * String.length (session_text e t r z))) = S (S (S (S (S (S f))))))
    as [f ->].
  { unfold session_text, quote_onto. cbn [String.length Nat.mul Nat.add]. eauto. }
  unfold session_text.
  change (parse_value (S (S (S (S (S (S f)))))) (String "{" ?x))
    with (parse_members (S (S (S (S (S f))))) [] x).
  rewrite !parse_member_string, parse_member_last_number.
  reflexivity.
Qed.

Lemma parse_member_last_null (f : nat) (acc : list (string * value)) (k : string)
    (rest : string) :
  parse_members (S (S f)) acc
    (quote_onto k (String ":" (String "n" (String "u" (String "l" (String "l"
       (String "}" rest))))))) =
  Some (VObj (obj_set acc k VNull), rest).
Proof.
  unfold quote_onto at 1. rewrite parse_members_unfold, string_body_quote_body.
  reflexivity.
Qed.

Lemma JSON_stringify_session_NaN (e t r : string) :
  JSON_stringify (AuthSession.to_value (AuthSession.Build e t r NaN)) =
  Some (session_text_null e t r).
Proof.
  unfold AuthSession.to_value. cbn [AuthSession.email AuthSession.idToken AuthSession.refreshToken AuthSession.expiresAt].
  cbn [JSON_stringify join_with]. f_equal.
  rewrite !append_assoc', !quote_app. reflexivity.
Qed.

Lemma JSON_parse_session_null (e t r : string) :
  JSON_parse (session_text_null e t r) =
  Ok (VObj [("email", VStr e); ("idToken", VStr t); ("refreshToken", VStr r);
            ("expiresAt", VNull)]).
Proof.
  unfold JSON_parse.
  assert (exists f, S (S (2 * String.length (session_text_null e t r))) = S (S (S (S (S (S f))))))
    as [f ->].
  { unfold session_text_null, quote_onto. cbn [String.length Nat.mul Nat.add]. eauto. }
  unfold session_text_null.
  change (parse_value (S (S (S (S (S (S f)))))) (String "{" ?x))
    with (parse_members (S (S (S (S (S f))))) [] x).
  rewrite !parse_member_string, parse_member_last_null.
  reflexivity.
Qed.
(** ** Running the service *)

(** Unfolds the methods and the primitive computations down to the world. *)
Ltac exec :=
  cbv beta iota zeta delta
    [getValidToken ensureSessionValidity refreshSession persistSession restoreSession
     login logout toSession assertApiKey constructor
     bind ret throw lift try_catch void get_session set_session Date_now
     typeof_window_undefined localStorage_getItem localStorage_setItem
     localStorage_removeItem http_post after_post refresh_request
     with_session with_window with_clock with_posts];
  cbn [session window clock posts issuer refresher fst snd].

Lemma beyond_margin_Int (z now : Z) :
  beyond_margin (Int z) now = true <-> now + 60000 < z.
Proof.
  unfold beyond_margin, num_gt, num_sub. rewrite Z.ltb_lt. lia.
Qed.

(** Each method as a function of the world it starts in. *)

Lemma refreshSession_cases (current : value) (w : World) :
  refreshSession current w =
  if is_empty apiKey then (Throw config_error, w)
  else
    let x := refresher w (length (posts w)) in
    let w' := after_post (refresh_request current) (elapsed x) w in
    match answer x with
    | Replied r => (Ok (session_of_refresh current r (clock w')), w')
    | Failed status => (Throw (HttpErrorResponse status), w')
    end.
Proof.
  exec. destruct (is_empty apiKey); [reflexivity|].
  destruct (answer (refresher w (length (posts w)))); reflexivity.
Qed.

Lemma persistSession_cases (s : value) (w : World) :
  persistSession s w =
  (Ok tt,
   match window w with
   | Some ls => with_window (Some (write_through s ls)) (with_session s w)
   | None => with_session s w
   end).
Proof.
  exec. unfold write_through. destruct (window w); [|reflexivity].
  destruct (truthy s); reflexivity.
Qed.

Lemma restoreSession_cases (w : World) : restoreSession w = (Ok (restored w), w).
Proof.
  exec. unfold restored, persisted. destruct (window w) as [ls|] eqn:Hw; [|reflexivity].
  rewrite Hw.
  destruct (ls !! storageKey) as [text|]; [|reflexivity].
  destruct (is_empty text); [reflexivity|].
  destruct (JSON_parse text); reflexivity.
Qed.

Lemma logout_cases (w : World) :
  logout w =
  (Ok tt,
   match window w with
   | Some ls => with_window (Some (delete storageKey ls)) (with_session VNull w)
   | None => with_session VNull w
   end).
Proof.
  exec. destruct (window w); reflexivity.
Qed.

Lemma getValidToken_stale (w : World) (expiry : number) :
  truthy (session w) = true ->
  ToNumber (get (session w) "expiresAt") = Ok expiry ->
  beyond_margin expiry (clock w) = false ->
  getValidToken w =
  match refreshSession (session w) w with
  | (Ok refreshed, w1) => (Ok (get refreshed "idToken"), snd (persistSession refreshed w1))
  | (Throw e, w1) => (Throw e, w1)
  end.
Proof.
  intros Ht Hn Hs.
  cbv beta iota zeta delta [getValidToken bind get_session lift Date_now ret throw].
  rewrite Ht, Hn. cbn [negb]. unfold beyond_margin in Hs. rewrite Hs.
  destruct (refreshSession (session w) w) as [[refreshed|e] w1]; [|reflexivity].
  rewrite persistSession_cases. reflexivity.
Qed.

Lemma logout_state (w : World) :
  session (snd (logout w)) = VNull /\
  persisted (snd (logout w)) = None /\
  isAuthenticated (snd (logout w)) = false /\
  userEmail (snd (logout w)) = VNull /\
  posts (snd (logout w)) = posts w /\
  clock (snd (logout w)) = clock w.
Proof.
  rewrite logout_cases. unfold persisted, isAuthenticated, userEmail.
  destruct w as [s [ls|] c i rf p]; cbn; repeat split; try reflexivity.
  apply lookup_delete_eq.
Qed.

Lemma persistSession_state (s : value) (w : World) :
  session (snd (persistSession s w)) = s /\
  posts (snd (persistSession s w)) = posts w /\
  clock (snd (persistSession s w)) = clock w /\
  window (snd (persistSession s w)) = write_through s <$> window w.
Proof.
  rewrite persistSession_cases.
  destruct w as [s0 [ls|] c i rf p]; cbn; repeat split; reflexivity.
Qed.

Lemma getValidToken_unauthenticated (w : World) :
  truthy (session w) = false -> getValidToken w = (Throw not_authenticated, w).
Proof.
  intros H.
  cbv beta iota zeta delta [getValidToken bind get_session throw].
  rewrite H. reflexivity.
Qed.

Lemma ensureSessionValidity_expired (w : World) (expiry : number) :
  truthy (session w) = true ->
  ToNumber (get (session w) "expiresAt") = Ok expiry ->
  num_le expiry (Int (clock w)) = true ->
  ensureSessionValidity w =
  match refreshSession (session w) w with
  | (Ok refreshed, w1) => persistSession refreshed w1
  | (Throw _, w1) => logout w1
  end.
Proof.
  intros Ht Hn Hle.
  cbv beta iota zeta delta
    [ensureSessionValidity bind get_session lift Date_now ret throw try_catch].
  rewrite Ht, Hn. cbn [negb]. rewrite Hle.
  destruct (refreshSession (session w) w) as [[refreshed|e] w1]; [|reflexivity].
  destruct (persistSession refreshed w1) as [[[]|e] w2] eqn:Hp; [reflexivity|].
  rewrite persistSession_cases in Hp. discriminate.
Qed.

(** *** The call that is not awaited *)

(** What [refreshSession] has done when it reaches its [await], and what
    it does when the answer is there. *)
Lemma refreshSession_call_cases (current : value) (w : World) :
  exists rest : M value,
    refreshSession_call current w =
      (if is_empty apiKey then (Settled (Throw config_error), w)
       else (Pending (elapsed (refresher w (length (posts w)))) rest,
             with_posts (posts w ++ [refresh_request current]) w)) /\
    forall w2 : World,
      rest w2 =
      match answer (refresher w (length (posts w))) with
      | Replied r => (Ok (session_of_refresh current r (clock w2)), w2)
      | Failed status => (Throw (HttpErrorResponse status), w2)
      end.
Proof.
  cbv beta iota zeta delta [refreshSession_call assertApiKey http_post_call await].
  destruct (is_empty apiKey).
  - exists (fun w2 =>
              match answer (refresher w (length (posts w))) with
              | Replied r => (Ok (session_of_refresh current r (clock w2)), w2)
              | Failed status => (Throw (HttpErrorResponse status), w2)
              end).
    split; reflexivity.
  - eexists. split; [reflexivity|].
    intros w2. cbv beta iota zeta delta [lift bind Date_now ret].
    destruct (answer _); reflexivity.
Qed.

(** The validation of an expired session is suspended in every case: on
    the request when there is an API key, on the rejected promise of
    [refreshSession] when there is none. *)
Lemma ensureSessionValidity_call_expired (w : World) (expiry : number) :
  truthy (session w) = true ->
  ToNumber (get (session w) "expiresAt") = Ok expiry ->
  num_le expiry (Int (clock w)) = true ->
  exists rest : M unit,
    ensureSessionValidity_call w =
      (if is_empty apiKey then (Pending 0 rest, w)
       else (Pending (elapsed (refresher w (length (posts w)))) rest,
             with_posts (posts w ++ [refresh_request (session w)]) w)) /\
    forall w2 : World,
      rest w2 =
      if is_empty apiKey then logout w2
      else match answer (refresher w (length (posts w))) with
           | Replied r => persistSession (session_of_refresh (session w) r (clock w2)) w2
           | Failed _ => logout w2
           end.
Proof.
  intros Ht Hn Hle.
  cbv beta iota zeta delta
    [ensureSessionValidity_call refreshSession_call assertApiKey http_post_call await].
  rewrite Ht, Hn. cbn [negb]. rewrite Hle.
  destruct (is_empty apiKey).
  - eexists. split; reflexivity.
  - eexists. split; [reflexivity|].
    intros w2. cbv beta iota zeta delta [lift bind Date_now ret try_catch].
    destruct (answer _) as [r|status]; [|reflexivity].
    rewrite !persistSession_cases. reflexivity.
Qed.

Lemma ensureSessionValidity_call_unauthenticated (w : World) :
  truthy (session w) = false -> ensureSessionValidity_call w = (Settled (Ok tt), w).
Proof.
  intros Ht. cbv beta iota zeta delta [ensureSessionValidity_call]. rewrite Ht. reflexivity.
Qed.

Lemma ensureSessionValidity_call_unexpired (w : World) (expiry : number) :
  truthy (session w) = true ->
  ToNumber (get (session w) "expiresAt") = Ok expiry ->
  num_le expiry (Int (clock w)) = false ->
  ensureSessionValidity_call w = (Settled (Ok tt), w).
Proof.
  intros Ht Hn Hle. cbv beta iota zeta delta [ensureSessionValidity_call].
  rewrite Ht, Hn. cbn [negb]. rewrite Hle. reflexivity.
Qed.

Lemma with_clock_same (w : World) : with_clock (clock w + Z.of_N 0) w = w.
Proof. destruct w. unfold with_clock. cbn. rewrite Z.add_0_r. reflexivity. Qed.

(** The call followed at once by its settlement is the method as its
    awaiting callers see it. *)
Lemma refreshSession_awaited (current : value) (w : World) :
  awaited (refreshSession_call current) w = refreshSession current w.
Proof.
  unfold awaited. rewrite refreshSession_cases.
  destruct (refreshSession_call_cases current w) as (rest & -> & Hrest).
  destruct (is_empty apiKey); [reflexivity|].
  rewrite Hrest. cbv zeta. destruct (answer _); reflexivity.
Qed.

Lemma ensureSessionValidity_awaited (w : World) :
  awaited ensureSessionValidity_call w = ensureSessionValidity w.
Proof.
  unfold awaited.
  destruct (truthy (session w)) eqn:Ht.
  - destruct (ToNumber (get (session w) "expiresAt")) as [expiry|e] eqn:Hn.
    + destruct (num_le expiry (Int (clock w))) eqn:Hle.
      * rewrite (ensureSessionValidity_expired w expiry Ht Hn Hle), refreshSession_cases.
        destruct (ensureSessionValidity_call_expired w expiry Ht Hn Hle) as (rest & -> & Hrest).
        destruct (is_empty apiKey).
        -- rewrite Hrest, with_clock_same. reflexivity.
        -- rewrite Hrest. cbv zeta. destruct (answer _); reflexivity.
      * rewrite (ensureSessionValidity_call_unexpired w expiry Ht Hn Hle).
        cbv beta iota zeta delta
          [ensureSessionValidity bind get_session lift Date_now ret throw try_catch].
        rewrite Ht, Hn. cbn [negb]. rewrite Hle. reflexivity.
    + cbv beta iota zeta delta
        [ensureSessionValidity ensureSessionValidity_call bind get_session lift Date_now
         ret throw try_catch].
      rewrite Ht, Hn. reflexivity.
  - rewrite (ensureSessionValidity_call_unauthenticated w Ht).
    cbv beta iota zeta delta
      [ensureSessionValidity bind get_session lift Date_now ret throw try_catch].
    rewrite Ht. reflexivity.
Qed.

Lemma constructor_cases (w : World) :
  constructor w = (Ok tt, snd (ensureSessionValidity_call (with_session (restored w) w))).
Proof.
  cbv beta iota zeta delta [constructor bind void set_session].
  rewrite restoreSession_cases. reflexivity.
Qed.

(** ** Valid tokens: [getValidToken] *)

(** C2.  A session whose [expiresAt] lies more than 60000 ms ahead of the
    clock: [getValidToken] answers the cached [idToken] and leaves the whole
    world as it was, so no request is made and neither the session nor the
    stored record changes. *)
Theorem C2_fresh_token_is_cached (w : World) (z : Z) :
  truthy (session w) = true ->
  ToNumber (get (session w) "expiresAt") = Ok (Int z) ->
  clock w + 60000 < z ->
  getValidToken w = (Ok (get (session w) "idToken"), w).
Proof.
  intros Ht Hn Hz. apply beyond_margin_Int in Hz. unfold beyond_margin in Hz.
  cbv beta iota zeta delta [getValidToken bind get_session lift Date_now ret throw].
  rewrite Ht, Hn. cbn [negb]. rewrite Hz. reflexivity.
Qed.

(** C5.  Without a session [getValidToken] throws the error of the
    unauthenticated user at once: the world is untouched, so no request
    was made. *)
Theorem C5_no_session_no_token (w : World) :
  isAuthenticated w = false ->
  getValidToken w = (Throw not_authenticated, w).
Proof.
  unfold isAuthenticated. apply getValidToken_unauthenticated.
Qed.

(** C1, amended.  For a session whose [expiresAt] is not more than 60000 ms
    ahead of the clock, [getValidToken] sends the refresh request, which
    carries the refresh token of the session, exactly once when there is an
    API key, and not at all when there is none: the call then fails with
    the configuration error and changes nothing.  When the request is
    answered, the session is replaced by a new object: the [email] of the
    old one, the [id_token] and the [refresh_token] of the response, and
    the clock after the exchange plus 1000 times the declared lifetime; the
    returned token is the new [idToken]; and the storage, where [window]
    exists, is written through, so that the stored record is the text of
    the new session.  When the request fails, the call fails with it. *)
Theorem C1_stale_token_is_refreshed (w : World) (expiry : number) :
  truthy (session w) = true ->
  ToNumber (get (session w) "expiresAt") = Ok expiry ->
  beyond_margin expiry (clock w) = false ->
  let x := refresher w (length (posts w)) in
  let w' := snd (getValidToken w) in
  (is_empty apiKey = true -> getValidToken w = (Throw config_error, w)) /\
  (is_empty apiKey = false ->
   posts w' = (posts w ++ [refresh_request (session w)])%list /\
   clock w' = clock w + Z.of_N (elapsed x) /\
   (forall status : Z,
       answer x = Failed status ->
       fst (getValidToken w) = Throw (HttpErrorResponse status)) /\
   (forall r : RefreshResponse.t,
       answer x = Replied r ->
       let refreshed := session_of_refresh (session w) r (clock w') in
       fst (getValidToken w) = Ok (VStr (RefreshResponse.id_token r)) /\
       session w' = refreshed /\
       get refreshed "email" = get (session w) "email" /\
       get refreshed "idToken" = VStr (RefreshResponse.id_token r) /\
       get refreshed "refreshToken" = VStr (RefreshResponse.refresh_token r) /\
       get refreshed "expiresAt" =
         VNum (num_add (Int (clock w'))
                 (num_mul (StringToNumber (RefreshResponse.expires_in r)) (Int 1000))) /\
       window w' = write_through refreshed <$> window w /\
       (forall ls : gmap string string,
           window w = Some ls -> persisted w' = JSON_stringify refreshed))).
Proof.
  intros Ht Hn Hs x w'. subst w'.
  rewrite (getValidToken_stale w expiry Ht Hn Hs), refreshSession_cases.
  split; [intros ->; reflexivity|]. intros ->.
  cbv zeta. fold x.
  destruct (answer x) as [r|status] eqn:Hx; cbn [fst snd].
  - match goal with |- context [persistSession ?s ?w1] =>
      destruct (persistSession_state s w1) as (Hsession & Hposts & Hclock & Hwindow)
    end.
    rewrite Hposts, Hclock, Hsession, Hwindow.
    split; [reflexivity|]. split; [reflexivity|]. split; [discriminate|].
    intros r' [= <-].
    repeat (split; [reflexivity|]).
    intros ls Hw. unfold persisted. rewrite Hwindow.
    cbn [window after_post with_clock with_posts]. rewrite Hw.
    cbn [fmap option_fmap option_map]. apply lookup_insert_eq.
  - split; [reflexivity|]. split; [reflexivity|].
    split; [intros status' [= <-]; reflexivity|discriminate].
Qed.

(** A failure of [refreshSession] leaves the session and the storage as
    they were, and it is the configuration error or the failure of the
    request. *)
Lemma refreshSession_throws (current : value) (w w1 : World) (e : exn) :
  refreshSession current w = (Throw e, w1) ->
  session w1 = session w /\ window w1 = window w /\
  (e = config_error \/ exists status, e = HttpErrorResponse status).
Proof.
  rewrite refreshSession_cases. destruct (is_empty apiKey).
  - intros [= <- <-]. eauto.
  - cbv zeta. destruct (answer _) as [r|status]; [discriminate|].
    intros [= <- <-]. eauto.
Qed.

(** C3.  In an authenticated state, when the refresh that [getValidToken]
    performs fails, the caller receives that very error, and the session,
    the storage and the stored record are those of before: the user stays
    authenticated.  The validation of the constructor treats the same
    failure the other way: were the session expired, it would end with no
    session and no stored record. *)
Theorem C3_refresh_failure_is_propagated (w w1 : World) (expiry : number) (e : exn) :
  isAuthenticated w = true ->
  ToNumber (get (session w) "expiresAt") = Ok expiry ->
  beyond_margin expiry (clock w) = false ->
  refreshSession (session w) w = (Throw e, w1) ->
  getValidToken w = (Throw e, w1) /\
  (e = config_error \/ exists status, e = HttpErrorResponse status) /\
  session w1 = session w /\
  window w1 = window w /\
  persisted w1 = persisted w /\
  isAuthenticated w1 = true /\
  (num_le expiry (Int (clock w)) = true ->
   session (snd (ensureSessionValidity w)) = VNull /\
   persisted (snd (ensureSessionValidity w)) = None).
Proof.
  unfold isAuthenticated. intros Ht Hn Hs Hr.
  rewrite (getValidToken_stale w expiry Ht Hn Hs), Hr.
  destruct (refreshSession_throws _ _ _ _ Hr) as (Hsess & Hwin & He).
  unfold persisted at 1 2. rewrite Hsess, Hwin.
  do 6 (split; [auto|]).
  intros Hle. rewrite (ensureSessionValidity_expired w expiry Ht Hn Hle), Hr.
  split; apply logout_state.
Qed.

(** ** Startup *)



(** C4, amended.  When the value rehydrated from the storage is a session
    whose [expiresAt] is not after the clock, the constructor starts one
    refresh and returns without waiting for it: it has sent the refresh
    request once when there is an API key and nothing when there is none,
    the rehydrated session is in the signal and the user is seen as
    authenticated, and one promise is pending.  When that promise
    settles, in whatever world the page is by then, nothing more is sent;
    if the refresh failed, for want of a key or because the request
    failed, the session is [null], the stored record is gone and the user
    is no longer authenticated; if it was answered, the session is the
    refreshed one, written through to the storage. *)
Theorem C4_expired_session_at_startup (w0 : World) (expiry : number) :
  truthy (restored w0) = true ->
  ToNumber (get (restored w0) "expiresAt") = Ok expiry ->
  num_le expiry (Int (clock w0)) = true ->
  let current := restored w0 in
  let x := refresher w0 (length (posts w0)) in
  let w1 := snd (constructor w0) in
  fst (constructor w0) = Ok tt /\
  session w1 = current /\
  isAuthenticated w1 = true /\
  window w1 = window w0 /\
  clock w1 = clock w0 /\
  posts w1 =
    (posts w0 ++ (if is_empty apiKey then [] else [refresh_request current]))%list /\
  exists (wait : N) (rest : M unit),
    startup w0 = Pending wait rest /\
    wait = (if is_empty apiKey then 0%N else elapsed x) /\
    forall w2 : World,
      let w3 := snd (rest w2) in
      fst (rest w2) = Ok tt /\
      posts w3 = posts w2 /\
      (is_empty apiKey = true \/ (exists status : Z, answer x = Failed status) ->
       session w3 = VNull /\ persisted w3 = None /\
       isAuthenticated w3 = false /\ userEmail w3 = VNull) /\
      (is_empty apiKey = false ->
       forall r : RefreshResponse.t,
         answer x = Replied r ->
         session w3 = session_of_refresh current r (clock w2) /\
         isAuthenticated w3 = true /\
         window w3 = write_through (session_of_refresh current r (clock w2)) <$> window w2).
Proof.
  intros Ht Hn Hle current x w1. subst w1.
  unfold startup. rewrite constructor_cases. cbn [fst snd].
  destruct (ensureSessionValidity_call_expired (with_session (restored w0) w0) expiry Ht Hn Hle)
    as (rest & -> & Hrest).
  change (session (with_session (restored w0) w0)) with current in *.
  change (posts (with_session (restored w0) w0)) with (posts w0) in *.
  change (refresher (with_session (restored w0) w0)) with (refresher w0) in *.
  fold x in Hrest |- *.
  split; [reflexivity|].
  assert (forall w2 : World,
             let w3 := snd (rest w2) in
             fst (rest w2) = Ok tt /\
             posts w3 = posts w2 /\
             (is_empty apiKey = true \/ (exists status : Z, answer x = Failed status) ->
              session w3 = VNull /\ persisted w3 = None /\
              isAuthenticated w3 = false /\ userEmail w3 = VNull) /\
             (is_empty apiKey = false ->
              forall r : RefreshResponse.t,
                answer x = Replied r ->
                session w3 = session_of_refresh current r (clock w2) /\
                isAuthenticated w3 = true /\
                window w3 =
                  write_through (session_of_refresh current r (clock w2)) <$> window w2))
    as Hsettle.
  { intros w2 w3. subst w3. rewrite Hrest.
    destruct (logout_state w2) as (Hs & Hrec & Hauth & Hu & Hp & _).
    destruct (is_empty apiKey).
    - split; [rewrite logout_cases; reflexivity|]. split; [exact Hp|].
      split; [auto|discriminate].
    - destruct (answer x) as [r|status].
      + destruct (persistSession_state (session_of_refresh current r (clock w2)) w2)
          as (Hs' & Hp' & _ & Hw').
        split; [rewrite persistSession_cases; reflexivity|]. split; [exact Hp'|].
        split.
        * intros [[=]|[status [=]]].
        * intros _ r' [= <-]. unfold isAuthenticated. rewrite Hs'. auto.
      + split; [rewrite logout_cases; reflexivity|]. split; [exact Hp|].
        split; [auto|]. intros _ r [=]. }
  destruct (is_empty apiKey); cbn [fst snd].
  - rewrite app_nil_r. do 5 (split; [first [reflexivity|exact Ht]|]).
    exists 0%N, rest. auto.
  - do 5 (split; [first [reflexivity|exact Ht]|]).
    exists (elapsed x), rest. auto.
Qed.

(** ** Login and logout *)

Lemma userEmail_unauthenticated (w : World) :
  isAuthenticated w = false -> userEmail w = VNull.
Proof.
  unfold isAuthenticated, userEmail.
  destruct (session w) as [| |b|n|s|items|props]; try reflexivity; discriminate.
Qed.

Lemma login_cases (email password : string) (w : World) :
  login email password w =
  if is_empty apiKey then (Throw config_error, w)
  else
    let x := issuer w (length (posts w)) in
    let w1 := after_post (SignInRequest signIn_endpoint (trim email) (trim password) true)
                (elapsed x) w in
    match answer x with
    | Replied r => (Ok tt, snd (persistSession (session_of_signIn r (clock w1)) w1))
    | Failed status => (Throw (HttpErrorResponse status), w1)
    end.
Proof.
  cbv beta iota zeta delta [login assertApiKey bind ret throw http_post toSession Date_now].
  destruct (is_empty apiKey); [reflexivity|].
  destruct (answer _) as [r|status]; [|reflexivity].
  rewrite !persistSession_cases. reflexivity.
Qed.

(** C6, amended.  After a successful [login] the user is authenticated and
    the observable identifier is the [email] of the issuer's response; the
    issuer was sent the submitted identifier and secret with the
    surrounding white space removed.  So an issuer that answers with the
    identifier it was sent makes the observable identifier the trimmed
    submission. *)
Theorem C6_login_adopts_issuer_identity (email password : string) (w w' : World) :
  login email password w = (Ok tt, w') ->
  exists r : SignInResponse.t,
    answer (issuer w (length (posts w))) = Replied r /\
    posts w' =
      (posts w ++ [SignInRequest signIn_endpoint (trim email) (trim password) true])%list /\
    isAuthenticated w' = true /\
    userEmail w' = VStr (SignInResponse.email r) /\
    (SignInResponse.email r = trim email -> userEmail w' = VStr (trim email)).
Proof.
  rewrite login_cases. destruct (is_empty apiKey); [discriminate|].
  cbv zeta. destruct (answer _) as [r|status]; [|discriminate].
  intros [= <-]. exists r.
  match goal with |- context [persistSession ?s ?w1] =>
    destruct (persistSession_state s w1) as (Hs & Hp & _) end.
  unfold isAuthenticated, userEmail. rewrite Hs, Hp.
  repeat split; try reflexivity.
  intros <-. reflexivity.
Qed.

(** C9, amended.  [logout] always returns.  Afterwards the session is
    [null], no record is stored, the user is not authenticated and
    [getValidToken] throws the error of the unauthenticated user; no
    request is sent.  Called when the user is not authenticated, it leaves
    the two observable signals as they were.  It leaves the whole world as
    it was exactly when the session is [null] already and no record is
    stored: a record left in the storage is removed, and a session that
    is falsy without being [null] becomes [null].  A second [logout]
    changes nothing. *)
Theorem C9_logout_clears_everything (w : World) :
  fst (logout w) = Ok tt /\
  session (snd (logout w)) = VNull /\
  persisted (snd (logout w)) = None /\
  isAuthenticated (snd (logout w)) = false /\
  userEmail (snd (logout w)) = VNull /\
  getValidToken (snd (logout w)) = (Throw not_authenticated, snd (logout w)) /\
  posts (snd (logout w)) = posts w /\
  (isAuthenticated w = false ->
   isAuthenticated (snd (logout w)) = isAuthenticated w /\
   userEmail (snd (logout w)) = userEmail w) /\
  (snd (logout w) = w <-> session w = VNull /\ persisted w = None) /\
  logout (snd (logout w)) = (Ok tt, snd (logout w)).
Proof.
  destruct (logout_state w) as (Hs & Hrec & Hauth & Hu & Hp & _).
  assert (forall v : World, session v = VNull -> persisted v = None -> snd (logout v) = v)
    as Hnoop.
  { intros v. rewrite logout_cases. unfold persisted.
    destruct v as [s [ls|] c i rf p]; cbn; intros -> Hnone; [|reflexivity].
    rewrite (delete_id _ _ Hnone). reflexivity. }
  split; [rewrite logout_cases; reflexivity|].
  do 4 (split; [assumption|]).
  split; [apply getValidToken_unauthenticated; assumption|].
  split; [assumption|].
  split; [|split].
  - intros Hw. rewrite Hauth, Hu, Hw. split; [reflexivity|].
    symmetry. apply userEmail_unauthenticated, Hw.
  - split.
    + intros E. rewrite <- E. auto.
    + intros [H1 H2]. apply Hnoop; assumption.
  - rewrite (surjective_pairing (logout (snd (logout w)))). f_equal.
    + rewrite logout_cases. reflexivity.
    + apply Hnoop; assumption.
Qed.

(** C10.  Without an API key [login] throws the configuration error, and
    so does [getValidToken] for a session that needs a refresh; in both
    cases the world is untouched: no request is made and the session and
    the storage stay as they were. *)
Theorem C10_missing_api_key (w : World) :
  is_empty apiKey = true ->
  (forall email password : string, login email password w = (Throw config_error, w)) /\
  (forall expiry : number,
      truthy (session w) = true ->
      ToNumber (get (session w) "expiresAt") = Ok expiry ->
      beyond_margin expiry (clock w) = false ->
      getValidToken w = (Throw config_error, w)).
Proof.
  intros Hk. split.
  - intros email password. rewrite login_cases, Hk. reflexivity.
  - intros expiry Ht Hn Hs.
    rewrite (getValidToken_stale w expiry Ht Hn Hs), refreshSession_cases, Hk.
    reflexivity.
Qed.

(** ** Persistence *)

Lemma is_empty_session_text (e t r : string) (z : Z) : is_empty (session_text e t r z) = false.
Proof. reflexivity. Qed.


(** ** Populated sessions *)

Lemma populated_session_of_signIn (r : SignInResponse.t) (now : Z) :
  populated (session_of_signIn r now) = true.
Proof. reflexivity. Qed.

Lemma populated_session_of_refresh (current : value) (r : RefreshResponse.t) (now : Z) :
  populated current = true -> populated (session_of_refresh current r now) = true.
Proof.
  unfold populated at 1. intros H.
  destruct (get current "email") eqn:He; try discriminate H.
  unfold populated, session_of_refresh. cbn. rewrite He. reflexivity.
Qed.

(** What a method can leave in the signal. *)
Lemma getValidToken_session (w : World) :
  session (snd (getValidToken w)) = session w \/
  truthy (session w) = true /\
  exists r now, session (snd (getValidToken w)) = session_of_refresh (session w) r now.
Proof.
  destruct (truthy (session w)) eqn:Ht.
  - destruct (ToNumber (get (session w) "expiresAt")) as [expiry|e] eqn:Hn.
    + destruct (beyond_margin expiry (clock w)) eqn:Hs.
      * left. unfold beyond_margin in Hs.
        cbv beta iota zeta delta [getValidToken bind get_session lift Date_now ret throw].
        rewrite Ht, Hn. cbn [negb]. rewrite Hs. reflexivity.
      * rewrite (getValidToken_stale w expiry Ht Hn Hs), refreshSession_cases.
        destruct (is_empty apiKey); [left; reflexivity|].
        cbv zeta. destruct (answer _) as [r|status]; [|left; reflexivity].
        right. split; [reflexivity|]. do 2 eexists. cbn [snd].
        apply persistSession_state.
    + left.
      cbv beta iota zeta delta [getValidToken bind get_session lift Date_now ret throw].
      rewrite Ht, Hn. reflexivity.
  - left. rewrite getValidToken_unauthenticated by exact Ht. reflexivity.
Qed.

Lemma login_session (email password : string) (w : World) :
  session (snd (login email password w)) = session w \/
  exists r now, session (snd (login email password w)) = session_of_signIn r now.
Proof.
  rewrite login_cases. destruct (is_empty apiKey); [left; reflexivity|].
  cbv zeta. destruct (answer _) as [r|status]; [|left; reflexivity].
  right. do 2 eexists. cbn [snd]. apply persistSession_state.
Qed.

Lemma perform_wellformed (c : call) (w : World) :
  wellformed w -> wellformed (perform c w).
Proof.
  unfold wellformed. intros Hw. destruct c as [email password| | |ms]; cbn [perform].
  - destruct (login_session email password w) as [-> | (r & now & ->)]; [exact Hw|].
    intros _. apply populated_session_of_signIn.
  - destruct (logout_state w) as (-> & _). discriminate.
  - destruct (getValidToken_session w) as [-> | (Ht & r & now & ->)]; [exact Hw|].
    intros _. apply populated_session_of_refresh, Hw, Ht.
  - exact Hw.
Qed.

Lemma run_wellformed (cs : list call) (w : World) :
  wellformed w -> wellformed (run cs w).
Proof.
  revert w. induction cs as [|c cs IH]; intros w Hw; [exact Hw|].
  cbn [run fold_left]. apply IH, perform_wellformed, Hw.
Qed.

Lemma constructor_wellformed (w0 : World) :
  (truthy (restored w0) = true -> populated (restored w0) = true) ->
  wellformed (snd (constructor w0)).
Proof.
  intros H0. rewrite constructor_cases. cbn [snd]. unfold wellformed.
  assert (session (snd (ensureSessionValidity_call (with_session (restored w0) w0)))
          = restored w0) as ->; [|exact H0].
  cbv beta iota zeta delta
    [ensureSessionValidity_call refreshSession_call assertApiKey http_post_call await].
  cbn [session with_session].
  destruct (truthy (restored w0)); [|reflexivity]. cbn [negb].
  destruct (ToNumber (get (restored w0) "expiresAt")) as [expiry|e]; [|reflexivity].
  destruct (num_le expiry _); [|reflexivity].
  destruct (is_empty apiKey); reflexivity.
Qed.

(** What the promise of the startup leaves in the signal when it settles. *)
Lemma settle_startup_wellformed (w0 w : World) :
  (truthy (restored w0) = true -> populated (restored w0) = true) ->
  wellformed w -> wellformed (settle (startup w0) w).
Proof.
  intros H0 Hw. unfold startup.
  destruct (truthy (restored w0)) eqn:Ht.
  - destruct (ToNumber (get (restored w0) "expiresAt")) as [expiry|e] eqn:Hn.
    + destruct (num_le expiry (Int (clock w0))) eqn:Hle.
      * destruct (ensureSessionValidity_call_expired (with_session (restored w0) w0)
                    expiry Ht Hn Hle) as (rest & -> & Hrest).
        assert (wellformed (snd (rest w))) as Hrw.
        { rewrite Hrest. unfold wellformed.
          destruct (logout_state w) as (Hs & _).
          destruct (is_empty apiKey); [rewrite Hs; discriminate|].
          destruct (answer _) as [r|status]; [|rewrite Hs; discriminate].
          match goal with |- context [persistSession ?s ?v] =>
            destruct (persistSession_state s v) as (-> & _) end.
          intros _. apply populated_session_of_refresh, H0. reflexivity. }
        destruct (is_empty apiKey); exact Hrw.
      * rewrite (ensureSessionValidity_call_unexpired (with_session (restored w0) w0)
                   expiry Ht Hn Hle).
        exact Hw.
    + cbv beta iota zeta delta [ensureSessionValidity_call].
      cbn [session with_session]. rewrite Ht, Hn. exact Hw.
  - rewrite (ensureSessionValidity_call_unauthenticated (with_session (restored w0) w0) Ht).
    exact Hw.
Qed.

(** C7, amended.  The service keeps its sessions populated but does not
    check what it rehydrates: if the value restored from the storage is no
    session or has the four properties, then the session, when there is
    one, has the four properties after the constructor, after any sequence
    of calls, after the settlement of the refresh that the constructor may
    have started, and after any sequence of calls that follows it; and
    whatever the state before, a successful [login] leaves a session with
    the four properties. *)
Theorem C7_sessions_stay_populated (w0 : World) (before after : list call) :
  (truthy (restored w0) = true -> populated (restored w0) = true) ->
  wellformed (run before (snd (constructor w0))) /\
  wellformed (run after (settle (startup w0) (run before (snd (constructor w0))))) /\
  (forall (email password : string) (w w' : World),
      login email password w = (Ok tt, w') ->
      truthy (session w') = true /\ populated (session w') = true).
Proof.
  intros H0.
  assert (wellformed (run before (snd (constructor w0)))) as Hb
    by apply run_wellformed, constructor_wellformed, H0.
  split; [exact Hb|]. split.
  - apply run_wellformed, settle_startup_wellformed; assumption.
  - intros email password w w'. rewrite login_cases.
    destruct (is_empty apiKey); [discriminate|].
    cbv zeta. destruct (answer _) as [r|status]; [|discriminate].
    intros [= <-].
    match goal with |- context [persistSession ?s ?w1] =>
      destruct (persistSession_state s w1) as (-> & _) end.
    split; reflexivity.
Qed.

(** ** Further properties of the service *)

(** *** Startup *)

(** X1.  A stored record that is not JSON does not stop the constructor:
    the service starts without a session and sends nothing.  The record
    itself is left in the storage. *)
Theorem X1_unparseable_record_at_startup (w0 : World) (text : string) (e : exn) :
  persisted w0 = Some text ->
  JSON_parse text = Throw e ->
  constructor w0 = (Ok tt, with_session VNull w0) /\
  isAuthenticated (snd (constructor w0)) = false /\
  persisted (snd (constructor w0)) = Some text /\
  posts (snd (constructor w0)) = posts w0.
Proof.
  intros Hp He.
  assert (restored w0 = VNull) as Hr.
  { unfold restored. rewrite Hp, He. destruct (is_empty text); reflexivity. }
  assert (constructor w0 = (Ok tt, with_session VNull w0)) as Hc.
  { rewrite constructor_cases, Hr. reflexivity. }
  rewrite Hc. repeat split; try reflexivity.
  destruct w0 as [s win c i rf p]. exact Hp.
Qed.

(** X2.  The constructor refreshes a rehydrated session only when its
    [expiresAt] has been reached: a session that expires later, be it in
    one millisecond, is adopted as it is and nothing is sent.  The margin
    of 60000 ms belongs to [getValidToken] alone, which does refresh such a
    session on its first call. *)
Theorem X2_startup_has_no_margin (w0 : World) (z : Z) :
  truthy (restored w0) = true ->
  ToNumber (get (restored w0) "expiresAt") = Ok (Int z) ->
  clock w0 < z ->
  let started := with_session (restored w0) w0 in
  constructor w0 = (Ok tt, started) /\
  (z <= clock w0 + 60000 ->
   posts (snd (getValidToken started)) =
     (posts w0 ++ (if is_empty apiKey then [] else [refresh_request (restored w0)]))%list).
Proof.
  intros Ht Hn Hz started. split.
  - rewrite constructor_cases. fold started.
    rewrite (ensureSessionValidity_call_unexpired started (Int z) Ht Hn); [reflexivity|].
    apply Z.leb_gt. exact Hz.
  - intros Hm.
    assert (beyond_margin (Int z) (clock started) = false) as Hs.
    { destruct (beyond_margin (Int z) (clock started)) eqn:Hb; [|reflexivity].
      apply beyond_margin_Int in Hb. change (clock started) with (clock w0) in Hb. lia. }
    rewrite (getValidToken_stale started (Int z) Ht Hn Hs), refreshSession_cases.
    destruct (is_empty apiKey); [cbn; rewrite app_nil_r; reflexivity|].
    cbv zeta. destruct (answer _) as [r|status]; cbn [snd]; [|reflexivity].
    match goal with |- context [persistSession ?s ?w1] =>
      destruct (persistSession_state s w1) as (_ & -> & _) end.
    reflexivity.
Qed.

(** *** Login *)

(** X3.  A [login] that fails changes neither the session nor the storage:
    a user who was authenticated stays so.  The failure is the missing API
    key, with nothing sent, or the refusal of the one request sent. *)
Theorem X3_failed_login_keeps_the_session (email password : string) (w w' : World) (e : exn) :
  login email password w = (Throw e, w') ->
  session w' = session w /\
  window w' = window w /\
  (e = config_error /\ w' = w \/
   exists status : Z,
     e = HttpErrorResponse status /\
     answer (issuer w (length (posts w))) = Failed status /\
     posts w' =
       (posts w ++ [SignInRequest signIn_endpoint (trim email) (trim password) true])%list).
Proof.
  rewrite login_cases. destruct (is_empty apiKey).
  - intros [= <- <-]. auto.
  - cbv zeta. destruct (answer _) as [r|status] eqn:Hx; [discriminate|].
    intros [= <- <-]. repeat split. right. exists status. auto.
Qed.

Lemma login_succeeds (email password : string) (w w1 : World) :
  login email password w = (Ok tt, w1) ->
  exists r : SignInResponse.t,
    is_empty apiKey = false /\
    answer (issuer w (length (posts w))) = Replied r /\
    clock w1 = clock w + Z.of_N (elapsed (issuer w (length (posts w)))) /\
    session w1 = session_of_signIn r (clock w1) /\
    window w1 = write_through (session w1) <$> window w /\
    posts w1 =
      (posts w ++ [SignInRequest signIn_endpoint (trim email) (trim password) true])%list.
Proof.
  rewrite login_cases. destruct (is_empty apiKey); [discriminate|].
  cbv zeta. destruct (answer _) as [r|status]; [|discriminate].
  intros [= <-]. exists r.
  match goal with |- context [persistSession ?s ?w1] =>
    destruct (persistSession_state s w1) as (Hs & Hp & Hc & Hw) end.
  rewrite Hs, Hp, Hc, Hw. repeat split; reflexivity.
Qed.

Lemma session_of_signIn_finite (r : SignInResponse.t) (now n : Z) :
  StringToNumber (SignInResponse.expiresIn r) = Int n ->
  session_of_signIn r now =
  AuthSession.to_value
    (AuthSession.Build (SignInResponse.email r) (SignInResponse.idToken r)
       (SignInResponse.refreshToken r) (Int (now + n * 1000))).
Proof. unfold session_of_signIn. intros ->. reflexivity. Qed.

Lemma session_of_refresh_expiry (current : value) (r : RefreshResponse.t) (now n : Z) :
  StringToNumber (RefreshResponse.expires_in r) = Int n ->
  ToNumber (get (session_of_refresh current r now) "expiresAt") = Ok (Int (now + n * 1000)).
Proof. unfold session_of_refresh. intros H. cbn. rewrite H. reflexivity. Qed.

(** What [restoreSession] answers depends on the storage alone. *)
Lemma restored_window (w1 w2 : World) : window w2 = window w1 -> restored w2 = restored w1.
Proof. unfold restored, persisted. intros ->. reflexivity. Qed.

Lemma restored_written_session (e t r : string) (z : Z) (w : World) (ls : gmap string string) :
  let s := AuthSession.to_value (AuthSession.Build e t r (Int z)) in
  window w = Some (write_through s ls) -> restored w = s.
Proof.
  intros s Hw. unfold restored, persisted. rewrite Hw.
  unfold write_through, s. cbn [truthy AuthSession.to_value].
  rewrite JSON_stringify_session.
  change (default _ (Some ?x)) with x.
  rewrite lookup_insert_eq, is_empty_session_text, JSON_parse_session. reflexivity.
Qed.

Lemma getValidToken_fresh (w : World) (z : Z) :
  truthy (session w) = true ->
  ToNumber (get (session w) "expiresAt") = Ok (Int z) ->
  clock w + 60000 < z ->
  getValidToken w = (Ok (get (session w) "idToken"), w).
Proof.
  intros Ht Hn Hz. apply beyond_margin_Int in Hz. unfold beyond_margin in Hz.
  cbv beta iota zeta delta [getValidToken bind get_session lift Date_now ret throw].
  rewrite Ht, Hn. cbn [negb]. rewrite Hz. reflexivity.
Qed.

(** X4.  Reloading the page after a login.  When [window] exists and the
    declared lifetime is a number, the record that [login] wrote restores
    to the very session that [login] left in memory; and a constructor that
    finds this storage before the expiry adopts that session without
    sending anything. *)
Theorem X4_reload_after_login (email password : string) (w w1 : World)
    (r : SignInResponse.t) (n : Z) (ls : gmap string string) :
  login email password w = (Ok tt, w1) ->
  window w = Some ls ->
  answer (issuer w (length (posts w))) = Replied r ->
  StringToNumber (SignInResponse.expiresIn r) = Int n ->
  restored w1 = session w1 /\
  forall w2 : World,
    window w2 = window w1 ->
    clock w2 < clock w1 + n * 1000 ->
    constructor w2 = (Ok tt, with_session (session w1) w2).
Proof.
  intros Hl Hw Hr Hn.
  destruct (login_succeeds _ _ _ _ Hl) as (r' & _ & Hr' & _ & Hs & Hwin & _).
  rewrite Hr in Hr'. injection Hr' as <-.
  rewrite (session_of_signIn_finite r (clock w1) n Hn) in Hs.
  rewrite Hw in Hwin. cbn [fmap option_fmap option_map] in Hwin.
  assert (restored w1 = session w1) as Hrest.
  { rewrite Hs in Hwin |- *. exact (restored_written_session _ _ _ _ w1 ls Hwin). }
  split; [exact Hrest|].
  intros w2 Hw2 Hc.
  rewrite constructor_cases, (restored_window w1 w2 Hw2), Hrest.
  rewrite (ensureSessionValidity_call_unexpired (with_session (session w1) w2)
             (Int (clock w1 + n * 1000))); [reflexivity|..].
  - cbn [session with_session]. rewrite Hs. reflexivity.
  - cbn [session with_session]. rewrite Hs. reflexivity.
  - cbn [clock with_session]. apply Z.leb_gt. exact Hc.
Qed.

(** X5.  The token right after a login.  When the declared lifetime is a
    number of seconds above 60, [getValidToken] answers the [idToken] that
    the issuer gave, and sends nothing. *)
Theorem X5_token_after_login (email password : string) (w w1 : World)
    (r : SignInResponse.t) (n : Z) :
  login email password w = (Ok tt, w1) ->
  answer (issuer w (length (posts w))) = Replied r ->
  StringToNumber (SignInResponse.expiresIn r) = Int n ->
  60 < n ->
  getValidToken w1 = (Ok (VStr (SignInResponse.idToken r)), w1).
Proof.
  intros Hl Hr Hn Hlt.
  destruct (login_succeeds _ _ _ _ Hl) as (r' & _ & Hr' & _ & Hs & _).
  rewrite Hr in Hr'. injection Hr' as <-.
  rewrite (session_of_signIn_finite r (clock w1) n Hn) in Hs.
  rewrite (getValidToken_fresh w1 (clock w1 + n * 1000)).
  - rewrite Hs. reflexivity.
  - rewrite Hs. reflexivity.
  - rewrite Hs. reflexivity.
  - lia.
Qed.

(** *** Successive calls of [getValidToken] *)

Lemma getValidToken_refreshes (w : World) (expiry : number) (r : RefreshResponse.t) :
  is_empty apiKey = false ->
  truthy (session w) = true ->
  ToNumber (get (session w) "expiresAt") = Ok expiry ->
  beyond_margin expiry (clock w) = false ->
  answer (refresher w (length (posts w))) = Replied r ->
  let w1 := snd (getValidToken w) in
  fst (getValidToken w) = Ok (VStr (RefreshResponse.id_token r)) /\
  clock w1 = clock w + Z.of_N (elapsed (refresher w (length (posts w)))) /\
  session w1 = session_of_refresh (session w) r (clock w1) /\
  posts w1 = (posts w ++ [refresh_request (session w)])%list /\
  window w1 = write_through (session w1) <$> window w.
Proof.
  intros Hk Ht Hn Hs Hr w1. subst w1.
  rewrite (getValidToken_stale w expiry Ht Hn Hs), refreshSession_cases, Hk.
  cbv zeta. rewrite Hr. cbn [fst snd].
  match goal with |- context [persistSession ?s ?w1] =>
    destruct (persistSession_state s w1) as (Hsession & Hposts & Hclock & Hwindow) end.
  rewrite Hsession, Hposts, Hclock, Hwindow. repeat split; reflexivity.
Qed.

(** X6.  The call that follows a refresh.  When the refreshed lifetime is
    a number of seconds above 60, the next [getValidToken] answers the new
    [idToken] and sends nothing.  When it is 60 or less, the next call
    refreshes again, and its request carries the refresh token of the
    first response, not the one the first request carried. *)
Theorem X6_call_after_a_refresh (w : World) (expiry : number) (r : RefreshResponse.t) (n : Z) :
  is_empty apiKey = false ->
  truthy (session w) = true ->
  ToNumber (get (session w) "expiresAt") = Ok expiry ->
  beyond_margin expiry (clock w) = false ->
  answer (refresher w (length (posts w))) = Replied r ->
  StringToNumber (RefreshResponse.expires_in r) = Int n ->
  let w1 := snd (getValidToken w) in
  (60 < n -> getValidToken w1 = (Ok (VStr (RefreshResponse.id_token r)), w1)) /\
  (n <= 60 ->
   posts (snd (getValidToken w1)) =
     (posts w ++ [refresh_request (session w);
                  RefreshRequest refresh_endpoint "refresh_token"
                    (VStr (RefreshResponse.refresh_token r))])%list).
Proof.
  intros Hk Ht Hn Hs Hr Hlife w1.
  destruct (getValidToken_refreshes w expiry r Hk Ht Hn Hs Hr) as (_ & _ & Hs1 & Hp1 & _).
  fold w1 in Hs1, Hp1.
  assert (truthy (session w1) = true) as Ht1 by (rewrite Hs1; reflexivity).
  assert (ToNumber (get (session w1) "expiresAt") = Ok (Int (clock w1 + n * 1000))) as Hn1.
  { rewrite Hs1. apply session_of_refresh_expiry, Hlife. }
  split.
  - intros Hlt. rewrite (getValidToken_fresh w1 (clock w1 + n * 1000) Ht1 Hn1) by lia.
    rewrite Hs1. reflexivity.
  - intros Hle.
    assert (beyond_margin (Int (clock w1 + n * 1000)) (clock w1) = false) as Hs'.
    { destruct (beyond_margin (Int (clock w1 + n * 1000)) (clock w1)) eqn:Hb; [|reflexivity].
      apply beyond_margin_Int in Hb. lia. }
    rewrite (getValidToken_stale w1 _ Ht1 Hn1 Hs'), refreshSession_cases, Hk.
    cbv zeta.
    match goal with |- context [answer ?x] => destruct (answer x) as [r2|status] end;
      cbn [snd].
    + match goal with |- context [persistSession ?s ?w2] =>
        destruct (persistSession_state s w2) as (_ & -> & _) end.
      cbn [posts after_post with_clock with_posts]. rewrite Hp1, <- app_assoc.
      unfold refresh_request at 2. rewrite Hs1. reflexivity.
    + cbn [posts after_post with_clock with_posts]. rewrite Hp1, <- app_assoc.
      unfold refresh_request at 2. rewrite Hs1. reflexivity.
Qed.

Lemma restored_written_NaN_session (e t r : string) (w : World) (ls : gmap string string) :
  window w = Some (write_through (AuthSession.to_value (AuthSession.Build e t r NaN)) ls) ->
  restored w =
  VObj [("email", VStr e); ("idToken", VStr t); ("refreshToken", VStr r); ("expiresAt", VNull)].
Proof.
  intros Hw. unfold restored, persisted. rewrite Hw.
  unfold write_through. cbn [truthy AuthSession.to_value].
  rewrite JSON_stringify_session_NaN.
  change (default _ (Some ?x)) with x.
  rewrite lookup_insert_eq, JSON_parse_session_null. reflexivity.
Qed.

(** X7.  A lifetime that is no number.  When the conversion of the declared
    lifetime gives [NaN], the session that [login] builds has [NaN] for
    [expiresAt], and the record that it stores has [null] there.  On the
    session in memory the test of [getValidToken] is false whatever the
    time: the call that follows the login sends a refresh request.  A page
    that restarts on the stored record reads the [null] as zero: at any
    time from 1970 on the constructor takes the session for expired and
    sends a refresh request at once. *)
Theorem X7_lifetime_that_is_no_number (email password : string) (w w1 : World)
    (r : SignInResponse.t) (ls : gmap string string) :
  login email password w = (Ok tt, w1) ->
  window w = Some ls ->
  answer (issuer w (length (posts w))) = Replied r ->
  StringToNumber (SignInResponse.expiresIn r) = NaN ->
  get (session w1) "expiresAt" = VNum NaN /\
  get (restored w1) "expiresAt" = VNull /\
  (forall t : Z,
      posts (snd (getValidToken (with_clock t w1))) =
        (posts w1 ++ [refresh_request (session w1)])%list) /\
  (forall w2 : World,
      window w2 = window w1 ->
      0 <= clock w2 ->
      constructor w2 =
        (Ok tt, with_posts (posts w2 ++ [refresh_request (session w1)])
                  (with_session (restored w1) w2))).
Proof.
  intros Hl Hw Hr Hn.
  destruct (login_succeeds _ _ _ _ Hl) as (r' & Hk & Hr' & _ & Hs & Hwin & _).
  rewrite Hr in Hr'. injection Hr' as <-.
  assert (session w1 =
          AuthSession.to_value
            (AuthSession.Build (SignInResponse.email r) (SignInResponse.idToken r)
               (SignInResponse.refreshToken r) NaN)) as Hs'.
  { rewrite Hs. unfold session_of_signIn. rewrite Hn. reflexivity. }
  rewrite Hw in Hwin. cbn [fmap option_fmap option_map] in Hwin. rewrite Hs' in Hwin.
  pose proof (restored_written_NaN_session _ _ _ w1 ls Hwin) as Hrest.
  assert (get (session w1) "expiresAt" = VNum NaN) as He by (rewrite Hs'; reflexivity).
  split; [exact He|]. split; [rewrite Hrest; reflexivity|]. split.
  - intros t. set (later := with_clock t w1).
    assert (truthy (session later) = true) as Ht by (cbn; rewrite Hs; reflexivity).
    assert (ToNumber (get (session later) "expiresAt") = Ok NaN) as Hnum
      by (cbn [session with_clock later]; rewrite He; reflexivity).
    rewrite (getValidToken_stale later NaN Ht Hnum eq_refl), refreshSession_cases, Hk.
    cbv zeta.
    match goal with |- context [answer ?x] => destruct (answer x) as [r2|status] end;
      cbn [snd].
    + match goal with |- context [persistSession ?s ?w2] =>
        destruct (persistSession_state s w2) as (_ & -> & _) end.
      reflexivity.
    + reflexivity.
  - intros w2 Hw2 Hc.
    rewrite constructor_cases, (restored_window w1 w2 Hw2).
    set (started := with_session (restored w1) w2).
    assert (truthy (session started) = true) as Ht by (cbn; rewrite Hrest; reflexivity).
    assert (ToNumber (get (session started) "expiresAt") = Ok (Int 0)) as Hnum
      by (cbn [session with_session started]; rewrite Hrest; reflexivity).
    assert (num_le (Int 0) (Int (clock started)) = true) as Hle
      by (apply Z.leb_le; exact Hc).
    destruct (ensureSessionValidity_call_expired started (Int 0) Ht Hnum Hle)
      as (rest & -> & _).
    rewrite Hk. cbn [snd]. f_equal. subst started.
    unfold refresh_request. cbn [session with_session posts]. rewrite Hrest, Hs'. reflexivity.
Qed.

(** *** The storage and the requests over a run *)





Lemma getValidToken_posts (w : World) :
  posts (snd (getValidToken w)) = posts w \/
  posts (snd (getValidToken w)) = (posts w ++ [refresh_request (session w)])%list.
Proof.
  destruct (truthy (session w)) eqn:Ht.
  - destruct (ToNumber (get (session w) "expiresAt")) as [expiry|e] eqn:Hn.
    + destruct (beyond_margin expiry (clock w)) eqn:Hs.
      * left. unfold beyond_margin in Hs.
        cbv beta iota zeta delta [getValidToken bind get_session lift Date_now ret throw].
        rewrite Ht, Hn. cbn [negb]. rewrite Hs. reflexivity.
      * rewrite (getValidToken_stale w expiry Ht Hn Hs), refreshSession_cases.
        destruct (is_empty apiKey); [left; reflexivity|].
        cbv zeta. destruct (answer _) as [r|status]; [|right; reflexivity].
        right. cbn [snd].
        match goal with |- context [persistSession ?s ?w1] =>
          destruct (persistSession_state s w1) as (_ & -> & _) end.
        reflexivity.
    + left.
      cbv beta iota zeta delta [getValidToken bind get_session lift Date_now ret throw].
      rewrite Ht, Hn. reflexivity.
  - left. rewrite getValidToken_unauthenticated by exact Ht. reflexivity.
Qed.

Lemma perform_posts (c : call) (w : World) :
  posts (perform c w) = posts w \/
  exists r : request, identity_request r /\ posts (perform c w) = (posts w ++ [r])%list.
Proof.
  destruct c as [email password| | |ms]; cbn [perform].
  - rewrite login_cases. destruct (is_empty apiKey); [left; reflexivity|].
    right. exists (SignInRequest signIn_endpoint (trim email) (trim password) true).
    split; [|cbv zeta; destruct (answer _) as [r|status]; cbn [snd]].
    + split; reflexivity.
    + match goal with |- context [persistSession ?s ?w1] =>
        destruct (persistSession_state s w1) as (_ & -> & _) end.
      reflexivity.
    + reflexivity.
  - left. apply logout_state.
  - destruct (getValidToken_posts w) as [H | H]; [left; exact H|].
    right. exists (refresh_request (session w)). split; [|exact H]. split; reflexivity.
  - left. reflexivity.
Qed.

(** X9.  The requests of a run.  A sequence of calls only adds to the log
    of requests, one request per call at most, and each of them goes to
    the sign-in or to the refresh endpoint under the configured key;
    [logout] sends nothing. *)
Theorem X9_requests_of_a_run (cs : list call) (w : World) :
  (exists new : list request,
      posts (run cs w) = (posts w ++ new)%list /\
      (length new <= length cs)%nat /\
      Forall identity_request new) /\
  posts (perform Logout w) = posts w.
Proof.
  split; [|apply logout_state].
  revert w. induction cs as [|c cs IH]; intros w.
  - exists []. cbn. rewrite app_nil_r. auto.
  - destruct (IH (perform c w)) as (new & Hp & Hl & Hf).
    change (run (c :: cs) w) with (run cs (perform c w)).
    destruct (perform_posts c w) as [H | (r & Hr & H)].
    + exists new. rewrite Hp, H. cbn [length]. split; [reflexivity|]. split; [lia|exact Hf].
    + exists (r :: new). rewrite Hp, H, <- app_assoc. cbn [length app].
      split; [reflexivity|]. split; [lia|]. constructor; assumption.
Qed.

(** X10.  What [login] keeps.  The session and the storage that a [login]
    leaves are made from the issuer's answer alone: the same answer gives
    the same session and the same storage whatever identifier and password
    were submitted, so neither of them is kept in memory or stored. *)
Theorem X10_login_keeps_no_credentials (email1 password1 email2 password2 : string)
    (w : World) :
  session (snd (login email1 password1 w)) = session (snd (login email2 password2 w)) /\
  window (snd (login email1 password1 w)) = window (snd (login email2 password2 w)) /\
  fst (login email1 password1 w) = fst (login email2 password2 w).
Proof.
  rewrite !login_cases. destruct (is_empty apiKey); [repeat split|].
  cbv zeta. destruct (answer _) as [r|status]; cbn [fst snd]; [|repeat split].
  repeat match goal with |- context [persistSession ?s ?w1] =>
    let H := fresh in
    destruct (persistSession_state s w1) as (-> & _ & _ & ->) end.
  repeat split.
Qed.

(** ** The consultant service *)

Lemma withAuth_cases {T} (requestFactory : HttpHeaders -> CM T) (c : Client) :
  withAuth requestFactory c =
  match getValidToken (auth c) with
  | (Throw e, w1) => (Throw e, with_auth w1 c)
  | (Ok token, w1) =>
      if truthy token then
        match ToString token with
        | Ok text => requestFactory (bearer_headers text) (with_auth w1 c)
        | Throw e => (Throw e, with_auth w1 c)
        end
      else requestFactory json_headers (with_auth w1 c)
  end.
Proof.
  cbv beta iota zeta delta [withAuth buildHeaders cbind of_auth clift cret].
  destruct (getValidToken (auth c)) as [[token|e] w1]; [|reflexivity].
  destruct (truthy token); [|reflexivity].
  destruct (ToString token); reflexivity.
Qed.

Lemma invoke_withAuth (o : operation) :
  invoke o = withAuth (fun headers => http_request (request_of o headers)).
Proof. destruct o; reflexivity. Qed.

Lemma http_request_cases (r : api_request) (c : Client) :
  http_request r c =
  (match answer (backend c (length (calls c))) with
   | Replied body => Ok body
   | Failed status => Throw (HttpErrorResponse status)
   end,
   after_call r (elapsed (backend c (length (calls c)))) c).
Proof.
  unfold http_request, after_call. cbv zeta.
  destruct (answer (backend c (length (calls c)))); reflexivity.
Qed.

(** X11.  Without a session no method of the consultant service reaches
    the backend: each of the five throws the error of the unauthenticated
    user and leaves the client as it was, with no request to the backend
    and none to the identity service. *)
Theorem X11_unauthenticated_client_sends_nothing (o : operation) (c : Client) :
  isAuthenticated (auth c) = false ->
  invoke o c = (Throw not_authenticated, c).
Proof.
  unfold isAuthenticated. intros H.
  rewrite invoke_withAuth, withAuth_cases, (getValidToken_unauthenticated _ H).
  destruct c; reflexivity.
Qed.

Lemma getValidToken_throws (w w1 : World) (e : exn) :
  getValidToken w = (Throw e, w1) ->
  session w1 = session w /\ window w1 = window w.
Proof.
  destruct (truthy (session w)) eqn:Ht.
  - destruct (ToNumber (get (session w) "expiresAt")) as [expiry|e'] eqn:Hn.
    + destruct (beyond_margin expiry (clock w)) eqn:Hb.
      * unfold beyond_margin in Hb.
        cbv beta iota zeta delta [getValidToken bind get_session lift Date_now ret throw].
        rewrite Ht, Hn. cbn [negb]. rewrite Hb. discriminate.
      * rewrite (getValidToken_stale w expiry Ht Hn Hb).
        destruct (refreshSession (session w) w) as [[s|e''] w2] eqn:Hr; [discriminate|].
        intros [= _ <-]. destruct (refreshSession_throws _ _ _ _ Hr) as (Hs & Hw & _). auto.
    + cbv beta iota zeta delta [getValidToken bind get_session lift Date_now ret throw].
      rewrite Ht, Hn. intros [= _ <-]. auto.
  - rewrite (getValidToken_unauthenticated _ Ht). intros [= _ <-]. auto.
Qed.

(** X12.  When [getValidToken] fails, whatever the reason, the method fails
    with the same error and the backend receives nothing; the session and
    the storage stay as they were. *)
Theorem X12_failed_token_stops_the_call (o : operation) (c : Client) (e : exn) (w1 : World) :
  getValidToken (auth c) = (Throw e, w1) ->
  invoke o c = (Throw e, with_auth w1 c) /\
  calls (snd (invoke o c)) = calls c /\
  session (auth (snd (invoke o c))) = session (auth c) /\
  window (auth (snd (invoke o c))) = window (auth c).
Proof.
  intros H. rewrite invoke_withAuth, withAuth_cases, H. cbn [fst snd auth with_auth calls].
  destruct (getValidToken_throws _ _ _ H) as (Hs & Hw). auto.
Qed.

Lemma invoke_with_token (o : operation) (c : Client) (token : string) (w1 : World) :
  getValidToken (auth c) = (Ok (VStr token), w1) ->
  is_empty token = false ->
  invoke o c = http_request (request_of o (bearer_headers token)) (with_auth w1 c).
Proof.
  intros H Hne. rewrite invoke_withAuth, withAuth_cases, H.
  cbn [truthy ToString]. rewrite Hne. reflexivity.
Qed.

(** X13.  With a session that is fresh and holds a token, each method makes
    exactly one request to the backend and none to the identity service.
    The request carries two headers, [Content-Type: application/json] and
    [Authorization: Bearer] followed by the [idToken] of the session; the
    session and the storage stay as they were. *)
Theorem X13_fresh_session_sends_its_token (o : operation) (c : Client) (z : Z)
    (token : string) :
  truthy (session (auth c)) = true ->
  ToNumber (get (session (auth c)) "expiresAt") = Ok (Int z) ->
  clock (auth c) + 60000 < z ->
  get (session (auth c)) "idToken" = VStr token ->
  is_empty token = false ->
  let c' := snd (invoke o c) in
  calls c' = (calls c ++ [request_of o (bearer_headers token)])%list /\
  bearer_headers token !! "Authorization" = Some ("Bearer " +:+ token) /\
  bearer_headers token !! "Content-Type" = Some "application/json" /\
  dom (bearer_headers token) = {[ "Authorization"; "Content-Type" ]} /\
  posts (auth c') = posts (auth c) /\
  session (auth c') = session (auth c) /\
  window (auth c') = window (auth c).
Proof.
  intros Ht Hn Hz Hid Hne c'. subst c'.
  pose proof (getValidToken_fresh (auth c) z Ht Hn Hz) as H. rewrite Hid in H.
  rewrite (invoke_with_token o c token _ H Hne), http_request_cases.
  cbn [snd calls after_call auth with_auth].
  split; [reflexivity|]. split; [apply lookup_insert_eq|].
  split; [unfold bearer_headers, json_headers; rewrite lookup_insert_ne by discriminate;
          apply lookup_insert_eq|].
  split; [unfold bearer_headers, json_headers; rewrite !dom_insert_L, dom_empty_L;
          set_solver|].
  repeat split.
Qed.

(** X14.  With a session that needs a refresh and an identity service that
    grants it, each method first refreshes, once, and then makes its one
    request to the backend with the new token, the [id_token] of the
    refresh response, not the token that the session held. *)
Theorem X14_stale_session_sends_the_new_token (o : operation) (c : Client)
    (expiry : number) (r : RefreshResponse.t) :
  is_empty apiKey = false ->
  truthy (session (auth c)) = true ->
  ToNumber (get (session (auth c)) "expiresAt") = Ok expiry ->
  beyond_margin expiry (clock (auth c)) = false ->
  answer (refresher (auth c) (length (posts (auth c)))) = Replied r ->
  is_empty (RefreshResponse.id_token r) = false ->
  let c' := snd (invoke o c) in
  calls c' = (calls c ++ [request_of o (bearer_headers (RefreshResponse.id_token r))])%list /\
  posts (auth c') = (posts (auth c) ++ [refresh_request (session (auth c))])%list /\
  get (session (auth c')) "idToken" = VStr (RefreshResponse.id_token r).
Proof.
  intros Hk Ht Hn Hs Hr Hne c'. subst c'.
  destruct (getValidToken_refreshes (auth c) expiry r Hk Ht Hn Hs Hr)
    as (Hfst & _ & Hsess & Hposts & _).
  destruct (getValidToken (auth c)) as [res w1] eqn:H. cbn [fst snd] in *. subst res.
  rewrite (invoke_with_token o c _ _ H Hne), http_request_cases.
  cbn [snd calls after_call auth with_auth posts with_clock session].
  rewrite Hposts, Hsess. repeat split.
Qed.

(** X15.  A session without a token.  When the session is fresh and its
    [idToken] is missing or empty, [getValidToken] answers a falsy value
    and the method makes its request all the same, with the header
    [Content-Type] alone: the backend is called without [Authorization]. *)
Theorem X15_session_without_token_calls_unauthorized (o : operation) (c : Client) (z : Z) :
  truthy (session (auth c)) = true ->
  ToNumber (get (session (auth c)) "expiresAt") = Ok (Int z) ->
  clock (auth c) + 60000 < z ->
  truthy (get (session (auth c)) "idToken") = false ->
  calls (snd (invoke o c)) = (calls c ++ [request_of o json_headers])%list /\
  json_headers !! "Authorization" = None.
Proof.
  intros Ht Hn Hz Hid.
  rewrite invoke_withAuth, withAuth_cases, (getValidToken_fresh (auth c) z Ht Hn Hz), Hid.
  rewrite http_request_cases. split; reflexivity.
Qed.

(** X16.  What the backend answers, success or failure, changes neither
    the session nor the storage nor the requests made to the identity
    service: after any method they are those that [getValidToken] left.
    A refusal of the backend does not log the user out. *)
Theorem X16_backend_answer_keeps_the_session (o : operation) (c : Client) :
  let w1 := snd (getValidToken (auth c)) in
  let c' := snd (invoke o c) in
  session (auth c') = session w1 /\
  window (auth c') = window w1 /\
  posts (auth c') = posts w1 /\
  (calls c' = calls c \/ exists r : api_request, calls c' = (calls c ++ [r])%list).
Proof.
  intros w1 c'. subst w1 c'.
  rewrite invoke_withAuth, withAuth_cases.
  destruct (getValidToken (auth c)) as [[token|e] w1]; cbn [snd]; [|auto].
  destruct (truthy token).
  - destruct (ToString token) as [text|e]; [|cbn; auto].
    rewrite http_request_cases. cbn. eauto 6.
  - rewrite http_request_cases. cbn. eauto 6.
Qed.

(** ** The list that the component shows *)

Lemma prefix_spec (t s : string) :
  String.prefix t s = true <-> exists post, s = t +:+ post.
Proof.
  revert s. induction t as [|a t IH]; intros s.
  - split; [intros _; exists s; reflexivity|intros _; destruct s; reflexivity].
  - destruct s as [|b s]; cbn [String.prefix].
    + split; [discriminate|]. intros [post H]. rewrite append_cons in H. discriminate.
    + destruct (ascii_dec a b) as [->|Hne].
      * rewrite IH. split; intros [post H]; exists post.
        -- rewrite append_cons, H. reflexivity.
        -- rewrite append_cons in H. congruence.
      * split; [discriminate|]. intros [post H]. rewrite append_cons in H. congruence.
Qed.

Lemma includes_spec (s t : string) :
  includes s t = true <-> exists pre post, s = pre +:+ t +:+ post.
Proof.
  induction s as [|a s IH]; cbn [includes].
  - destruct (String.prefix t "") eqn:Hp.
    + split; [intros _|reflexivity]. apply prefix_spec in Hp as [post H].
      exists "", post. exact H.
    + split; [discriminate|]. intros ([|c pre] & post & H); [|rewrite append_cons in H; discriminate].
      assert (String.prefix t "" = true) as Hp' by (apply prefix_spec; exists post; exact H).
      congruence.
  - destruct (String.prefix t (String a s)) eqn:Hp.
    + split; [intros _|reflexivity]. apply prefix_spec in Hp as [post H].
      exists "", post. exact H.
    + rewrite IH. split.
      * intros (pre & post & H). exists (String a pre), post. rewrite append_cons, H. reflexivity.
      * intros ([|c pre] & post & H).
        -- assert (String.prefix t (String a s) = true) as Hp'
             by (apply prefix_spec; exists post; exact H).
           congruence.
        -- rewrite append_cons in H. exists pre, post. congruence.
Qed.

Lemma includes_trans (a b c : string) :
  includes a b = true -> includes b c = true -> includes a c = true.
Proof.
  rewrite !includes_spec. intros (p1 & q1 & ->) (p2 & q2 & ->).
  exists (p1 +:+ p2), (q2 +:+ q1). rewrite !append_assoc'. reflexivity.
Qed.

Lemma includes_in_empty (t : string) : includes "" t = true -> t = "".
Proof.
  rewrite includes_spec. intros ([|c pre] & post & H); [|rewrite append_cons in H; discriminate].
  destruct t; [reflexivity|]. change ("" +:+ ?x) with x in H. rewrite append_cons in H.
  discriminate.
Qed.

Lemma Array_filter_sublist {A} (f : A -> result bool) (l kept : list A) :
  Array_filter f l = Ok kept -> sublist kept l.
Proof.
  revert kept. induction l as [|x l IH]; intros kept; cbn [Array_filter].
  - intros [= <-]. constructor.
  - destruct (f x) as [keep|e]; [|discriminate].
    destruct (Array_filter f l) as [kept'|e]; [|discriminate].
    intros [= <-]. destruct keep; constructor; apply IH; reflexivity.
Qed.

Lemma Array_filter_total {A} (f : A -> result bool) (g : A -> bool) (l : list A) :
  Forall (fun x => f x = Ok (g x)) l -> Array_filter f l = Ok (List.filter g l).
Proof.
  induction 1 as [|x l Hx _ IH]; cbn [Array_filter List.filter]; [reflexivity|].
  rewrite Hx, IH. reflexivity.
Qed.

Lemma some_includes_throws (term : string) (values : list value) (e : exn) :
  some_includes term values = Throw e -> e = TypeError.
Proof.
  induction values as [|v values IH]; cbn [some_includes]; [discriminate|].
  destruct v; try (intros [= <-]; reflexivity).
  destruct (includes (toLowerCase s) term); [discriminate|exact IH].
Qed.

Lemma shown_throws (term : string) (consultant : value) (e : exn) :
  shown term consultant = Throw e -> e = TypeError.
Proof.
  unfold shown, member.
  destruct consultant; try (intros [= <-]; reflexivity); apply some_includes_throws.
Qed.

Lemma Array_filter_shown_throws (term : string) (consultants : list value) (e : exn) :
  Array_filter (shown term) consultants = Throw e -> e = TypeError.
Proof.
  induction consultants as [|c l IH]; cbn [Array_filter]; [discriminate|].
  destruct (shown term c) as [keep|e'] eqn:Hc.
  - destruct (Array_filter (shown term) l) as [kept|e']; [discriminate|].
    intros [= <-]. apply IH. reflexivity.
  - intros [= <-]. exact (shown_throws _ _ _ Hc).
Qed.

(** *** Consultants of the declared type *)

Lemma some_includes_readable (term : string) (v : value) (rest : list value) :
  text_or_falsy v = true ->
  some_includes term (List.filter truthy (v :: rest)) =
  if value_matches term v then Ok true else some_includes term (List.filter truthy rest).
Proof.
  intros Hv. cbn [List.filter]. destruct v; cbn [text_or_falsy] in Hv;
    try (apply negb_true_iff in Hv; rewrite Hv; reflexivity).
  cbn [truthy value_matches]. destruct (is_empty s); reflexivity.
Qed.

Lemma shown_searchable (term : string) (consultant : value) :
  searchable consultant = true ->
  shown term consultant = Ok (consultant_matches term consultant).
Proof.
  intros H.
  assert (text_or_falsy (get consultant "nome") = true /\
          text_or_falsy (get consultant "email") = true /\
          text_or_falsy (get consultant "area") = true /\
          shown term consultant =
            some_includes term (List.filter truthy
              [get consultant "nome"; get consultant "email"; get consultant "area"]))
    as (H1 & H2 & H3 & ->).
  { destruct consultant; try discriminate H; unfold searchable in H;
      apply andb_true_iff in H as [H H3]; apply andb_true_iff in H as [H1 H2];
      repeat split; assumption. }
  rewrite (some_includes_readable _ _ _ H1), (some_includes_readable _ _ _ H2),
    (some_includes_readable _ _ _ H3).
  unfold consultant_matches.
  destruct (value_matches term (get consultant "nome")); [reflexivity|].
  destruct (value_matches term (get consultant "email")); [reflexivity|].
  destruct (value_matches term (get consultant "area")); reflexivity.
Qed.

(** X17.  On consultants of the declared type (each one an object whose
    [nome], [email] and [area] are strings or missing) a search with a
    term that is not blank never throws.  Its result is the list of the
    consultants, in their order and as many times as they occur, that have
    a non-empty field among the three in which the term occurs once both
    are in lower case; [id], [telefone] and [dataCadastro] are not
    searched. *)
Theorem X17_search_on_typed_consultants (filterTerm : string) (consultants : list value) :
  is_empty (toLowerCase (trim filterTerm)) = false ->
  Forall (fun c => searchable c = true) consultants ->
  filteredConsultants filterTerm consultants =
    Ok (List.filter (consultant_matches (toLowerCase (trim filterTerm))) consultants).
Proof.
  intros Hterm Hall. unfold filteredConsultants. cbv zeta. rewrite Hterm.
  apply Array_filter_total. eapply Forall_impl; [exact Hall|].
  intros c Hc. apply shown_searchable. exact Hc.
Qed.

(** *** A longer term *)

Lemma some_includes_narrows (term1 term2 : string) (values : list value) (b2 : bool) :
  includes term2 term1 = true ->
  some_includes term2 values = Ok b2 ->
  exists b1 : bool, some_includes term1 values = Ok b1 /\ (b2 = true -> b1 = true).
Proof.
  intros Hin. revert b2. induction values as [|v values IH]; intros b2; cbn [some_includes].
  - intros [= <-]. exists false. auto.
  - destruct v; try discriminate.
    destruct (includes (toLowerCase s) term2) eqn:H2.
    + intros [= <-]. rewrite (includes_trans _ _ _ H2 Hin). exists true. auto.
    + intros H. destruct (includes (toLowerCase s) term1); [exists true; auto|].
      apply IH. exact H.
Qed.

Lemma shown_narrows (term1 term2 : string) (consultant : value) (b2 : bool) :
  includes term2 term1 = true ->
  shown term2 consultant = Ok b2 ->
  exists b1 : bool, shown term1 consultant = Ok b1 /\ (b2 = true -> b1 = true).
Proof.
  intros Hin. unfold shown, member.
  destruct consultant; try discriminate; apply some_includes_narrows; exact Hin.
Qed.

Lemma Array_filter_narrows (term1 term2 : string) (consultants kept2 : list value) :
  includes term2 term1 = true ->
  Array_filter (shown term2) consultants = Ok kept2 ->
  exists kept1 : list value,
    Array_filter (shown term1) consultants = Ok kept1 /\
    Array_filter (shown term2) kept1 = Ok kept2.
Proof.
  intros Hin. revert kept2. induction consultants as [|c l IH]; intros kept2; cbn [Array_filter].
  - intros [= <-]. exists []. split; reflexivity.
  - destruct (shown term2 c) as [b2|e] eqn:H2; [|discriminate].
    destruct (Array_filter (shown term2) l) as [kept2'|e] eqn:Hl; [|discriminate].
    intros [= <-].
    destruct (shown_narrows term1 term2 c b2 Hin H2) as (b1 & H1 & Hb).
    destruct (IH kept2' eq_refl) as (kept1' & Hk1 & Hk2).
    rewrite H1, Hk1. eexists. split; [reflexivity|].
    destruct b1.
    + cbn [Array_filter]. rewrite H2, Hk2. reflexivity.
    + destruct b2; [specialize (Hb eq_refl); discriminate|]. exact Hk2.
Qed.

(** X18.  A longer term narrows the list.  When the term of one search,
    trimmed and in lower case, occurs in the term of another, and the
    search with the longer term succeeds, the search with the shorter one
    succeeds too, the longer term keeps a sublist of what the shorter
    keeps, and searching the shorter result with the longer term gives the
    same list as searching all the consultants.  The hypothesis is on the
    terms in lower case: typing more letters need not extend the lower-case
    term, since [toLowerCase] looks at the context of a letter. *)
Theorem X18_longer_term_narrows (term1 term2 : string) (consultants kept2 : list value) :
  includes (toLowerCase (trim term2)) (toLowerCase (trim term1)) = true ->
  filteredConsultants term2 consultants = Ok kept2 ->
  exists kept1 : list value,
    filteredConsultants term1 consultants = Ok kept1 /\
    sublist kept2 kept1 /\
    sublist kept1 consultants /\
    filteredConsultants term2 kept1 = Ok kept2.
Proof.
  intros Hin. unfold filteredConsultants. cbv zeta.
  destruct (is_empty (toLowerCase (trim term2))) eqn:H2.
  - assert (toLowerCase (trim term2) = "") as E by (destruct (toLowerCase (trim term2)); [reflexivity|discriminate]).
    rewrite E in Hin. apply includes_in_empty in Hin. rewrite Hin. cbn [is_empty].
    intros [= <-]. exists consultants. repeat split; reflexivity.
  - intros H. destruct (is_empty (toLowerCase (trim term1))) eqn:H1.
    + exists consultants. split; [reflexivity|]. split; [exact (Array_filter_sublist _ _ _ H)|].
      split; [reflexivity|exact H].
    + destruct (Array_filter_narrows _ _ _ _ Hin H) as (kept1 & Hk1 & Hk2).
      exists kept1. split; [exact Hk1|]. split; [exact (Array_filter_sublist _ _ _ Hk2)|].
      split; [exact (Array_filter_sublist _ _ _ Hk1)|exact Hk2].
Qed.

(** *** What the backend sent is not checked *)

Lemma shown_unreadable (term : string) (consultant : value) :
  unreadable consultant = true -> shown term consultant = Throw TypeError.
Proof.
  unfold unreadable, shown, member.
  destruct consultant; try reflexivity;
    (destruct (List.filter truthy _) as [|[] ?]; [discriminate|try reflexivity; discriminate..]).
Qed.

Lemma Array_filter_unreadable (term : string) (consultants : list value) :
  Exists (fun c => unreadable c = true) consultants ->
  Array_filter (shown term) consultants = Throw TypeError.
Proof.
  induction 1 as [c l Hc|c l _ IH]; cbn [Array_filter].
  - rewrite (shown_unreadable _ _ Hc). reflexivity.
  - rewrite IH. destruct (shown term c) as [keep|e] eqn:Hs; [reflexivity|].
    rewrite (shown_throws _ _ _ Hs). reflexivity.
Qed.

(** X19.  The consultants are what the backend sent, unchecked.  When one
    of them is [null], or has for first truthy field among [nome], [email]
    and [area] a value that is no string, the blank search shows the whole
    list and every search with a term that is not blank throws a
    [TypeError]; and a search never throws anything else. *)
Theorem X19_search_on_an_unreadable_consultant (filterTerm : string) (consultants : list value) :
  (Exists (fun c => unreadable c = true) consultants ->
   filteredConsultants filterTerm consultants =
     if is_empty (toLowerCase (trim filterTerm)) then Ok consultants else Throw TypeError) /\
  (forall e : exn, filteredConsultants filterTerm consultants = Throw e -> e = TypeError).
Proof.
  unfold filteredConsultants. cbv zeta. split.
  - intros H. destruct (is_empty (toLowerCase (trim filterTerm))); [reflexivity|].
    apply Array_filter_unreadable. exact H.
  - intros e. destruct (is_empty (toLowerCase (trim filterTerm))); [discriminate|].
    apply Array_filter_shown_throws.
Qed.
End Service.

(** ** The statements at the sample data *)

Example trim_samples :
  trim "  a@b.com " = "a@b.com" /\ trim "a b" = "a b" /\ trim " " = EmptyString.
Proof. vm_compute. auto. Qed.

Example stringify_samples :
  JSON_stringify (sample_session (Int 1000000)) = Some sample_record /\
  JSON_stringify (VObj [("email", VUndefined); ("expiresAt", VNum NaN)]) =
    Some (js "{'expiresAt':null}").
Proof. vm_compute. auto. Qed.

(** The scenario of the specification: a sign-in at the time 0 answered
    after 120 ms with the lifetime ["3600"]. *)
Example login_scenario :
  session (snd (login KEY decimal_StringToNumber "a@b.com" "secret"
                  (page VNull ∅ 0 issuer_ok refresher_down))) =
  sample_session (Int 3600120).
Proof. vm_compute. reflexivity. Qed.

Lemma C2_witness :
  let w := page (sample_session (Int 1000000)) (stored sample_record) 2000
             issuer_down refresher_down in
  getValidToken KEY decimal_StringToNumber w = (Ok (VStr "T1"), w).
Proof.
  intros w.
  exact (C2_fresh_token_is_cached KEY decimal_StringToNumber w 1000000
           eq_refl eq_refl eq_refl).
Defined.

Lemma C5_witness :
  let w := page VNull ∅ 2000 issuer_down refresher_ok in
  getValidToken KEY decimal_StringToNumber w = (Throw not_authenticated, w).
Proof.
  intros w. exact (C5_no_session_no_token KEY decimal_StringToNumber w eq_refl).
Defined.

(** The session expired 1000 ms ago; the refresh is answered after 250 ms
    with [T2], [R2] and the lifetime ["3600"]. *)
Lemma C1_witness :
  let w := page (sample_session (Int 1000000)) (stored sample_record) 1001000
             issuer_down refresher_ok in
  let w' := snd (getValidToken KEY decimal_StringToNumber w) in
  fst (getValidToken KEY decimal_StringToNumber w) = Ok (VStr "T2") /\
  posts w' =
    [RefreshRequest (refresh_endpoint KEY) "refresh_token" (VStr "R1")] /\
  session w' =
    AuthSession.to_value (AuthSession.Build "a@b.com" "T2" "R2" (Int 4601250)) /\
  persisted w' =
    Some (js "{'email':'a@b.com','idToken':'T2','refreshToken':'R2','expiresAt':4601250}").
Proof.
  intros w w'.
  destruct (C1_stale_token_is_refreshed KEY decimal_StringToNumber w (Int 1000000)
              eq_refl eq_refl eq_refl) as (_ & Hkey).
  destruct (Hkey eq_refl) as (Hposts & Hclock & _ & Hok).
  destruct (Hok (RefreshResponse.Build "T2" "R2" "3600" "uid-1") eq_refl)
    as (Hfst & Hsession & _ & _ & _ & _ & _ & Hstore).
  split; [exact Hfst|]. split; [exact Hposts|]. split.
  - subst w'. rewrite Hsession, Hclock. vm_compute. reflexivity.
  - subst w'. rewrite (Hstore (stored sample_record) eq_refl), Hclock.
    vm_compute. reflexivity.
Defined.

(** Without an API key the stale session causes no request at all, and
    without [window] a refresh that succeeds writes no record. *)
Lemma C1_counterexample :
  let stale := sample_session (Int 1000000) in
  let w := page stale (stored sample_record) 1001000 issuer_down refresher_ok in
  let v := windowless stale 1001000 issuer_down refresher_ok in
  (truthy (session w) = true /\
   beyond_margin (Int 1000000) (clock w) = false /\
   getValidToken EmptyString decimal_StringToNumber w = (Throw config_error, w) /\
   length (posts (snd (getValidToken EmptyString decimal_StringToNumber w))) = 0%nat) /\
  (fst (getValidToken KEY decimal_StringToNumber v) = Ok (VStr "T2") /\
   persisted (snd (getValidToken KEY decimal_StringToNumber v)) = None).
Proof. vm_compute. auto. Qed.

(** The session expired 1000 ms ago and the refresh endpoint answers 503. *)
Lemma C3_witness :
  let w := page (sample_session (Int 1000000)) (stored sample_record) 1001000
             issuer_down refresher_down in
  let w1 := after_post (refresh_request KEY (session w)) 250 w in
  getValidToken KEY decimal_StringToNumber w = (Throw (HttpErrorResponse 503), w1) /\
  session w1 = session w /\
  persisted w1 = Some sample_record /\
  isAuthenticated w1 = true /\
  session (snd (ensureSessionValidity KEY decimal_StringToNumber w)) = VNull.
Proof.
  intros w w1.
  destruct (C3_refresh_failure_is_propagated KEY decimal_StringToNumber w w1
              (Int 1000000) (HttpErrorResponse 503) eq_refl eq_refl eq_refl eq_refl)
    as (Hthrow & _ & Hsession & _ & Hpersisted & Hauth & Hstartup).
  split; [exact Hthrow|]. split; [exact Hsession|]. split.
  - rewrite Hpersisted. vm_compute. reflexivity.
  - split; [exact Hauth|]. apply Hstartup. reflexivity.
Defined.

(** The stored session expired long ago and the refresh is refused after
    250 ms. *)
Lemma C4_witness :
  let w0 := page VUndefined (stored sample_record) 2000000 issuer_down refresher_down in
  let w1 := snd (constructor KEY decimal_StringToNumber w0) in
  let w3 := settle (startup KEY decimal_StringToNumber w0) (with_clock 2000250 w1) in
  posts w1 = [RefreshRequest (refresh_endpoint KEY) "refresh_token" (VStr "R1")] /\
  isAuthenticated w1 = true /\
  session w3 = VNull /\ persisted w3 = None /\ isAuthenticated w3 = false /\
  posts w3 = posts w1.
Proof.
  intros w0 w1 w3.
  assert (restored w0 = sample_session (Int 1000000)) as Hr by (vm_compute; reflexivity).
  assert (truthy (restored w0) = true) as Ht by (rewrite Hr; reflexivity).
  assert (ToNumber decimal_StringToNumber (get (restored w0) "expiresAt") = Ok (Int 1000000))
    as Hn by (rewrite Hr; reflexivity).
  destruct (C4_expired_session_at_startup KEY decimal_StringToNumber w0 (Int 1000000)
              Ht Hn eq_refl)
    as (_ & _ & Hauth & _ & _ & Hposts & wait & rest & Hstart & _ & Hsettle).
  destruct (Hsettle (with_clock 2000250 w1)) as (_ & Hsame & Hfail & _).
  destruct Hfail as (Hsession & Hpersisted & Hout & _);
    [right; exists 503; reflexivity|].
  subst w3. rewrite Hstart. cbn [settle].
  split; [subst w1; rewrite Hposts, Hr; reflexivity|].
  split; [exact Hauth|]. auto.
Defined.

(** The same page when the constructor returns: the refresh that will be
    refused is under way, and the session that expired is in the signal,
    so that the user is seen as authenticated.  [getValidToken] called
    then sends a second refresh request.  Without an API key the
    constructor sends no request at all. *)
Lemma C4_counterexample :
  let w0 := page VUndefined (stored sample_record) 2000000 issuer_down refresher_down in
  let w1 := snd (constructor KEY decimal_StringToNumber w0) in
  (get (restored w0) "expiresAt" = VNum (Int 1000000) /\
   clock w0 = 2000000 /\
   answer (refresher w0 (length (posts w0))) = Failed 503) /\
  (fst (constructor KEY decimal_StringToNumber w0) = Ok tt /\
   session w1 = sample_session (Int 1000000) /\
   isAuthenticated w1 = true /\
   userEmail w1 = VStr "a@b.com" /\
   persisted w1 = Some sample_record /\
   length (posts (snd (getValidToken KEY decimal_StringToNumber w1))) = 2%nat) /\
  posts (snd (constructor EmptyString decimal_StringToNumber w0)) = [].
Proof. vm_compute. repeat split. Qed.

Lemma C6_witness :
  let w := page VNull ∅ 0 issuer_ok refresher_down in
  let w' := snd (login KEY decimal_StringToNumber "a@b.com" "secret" w) in
  isAuthenticated w' = true /\ userEmail w' = VStr "a@b.com".
Proof.
  intros w w'.
  destruct (C6_login_adopts_issuer_identity KEY decimal_StringToNumber
              "a@b.com" "secret" w w') as (r & Hr & _ & Hauth & _ & Hecho).
  { vm_compute. reflexivity. }
  injection Hr as <-. split; [exact Hauth|]. apply Hecho. vm_compute. reflexivity.
Defined.

(** The identifier is submitted with white space around it.  The issuer
    receives it trimmed and answers with what it received; the observable
    identifier is not the submitted one. *)
Lemma C6_counterexample :
  let submitted := "  a@b.com " in
  let w := page VNull ∅ 0 issuer_ok refresher_down in
  let w' := snd (login KEY decimal_StringToNumber submitted "secret" w) in
  fst (login KEY decimal_StringToNumber submitted "secret" w) = Ok tt /\
  posts w' = [SignInRequest (signIn_endpoint KEY) "a@b.com" "secret" true] /\
  isAuthenticated w' = true /\
  userEmail w' = VStr "a@b.com" /\
  userEmail w' <> VStr submitted.
Proof. vm_compute. repeat split; discriminate. Qed.

(** The stored session has expired: the constructor starts a refresh, two
    calls are made before it is answered and four after. *)
Lemma C7_witness :
  let w0 := page VUndefined (stored sample_record) 2000000 issuer_ok refresher_ok in
  let before := [GetValidToken; Elapse 250] in
  let after := [Elapse 5000000; GetValidToken; Logout;
                Login "a@b.com" "secret"; GetValidToken] in
  let w :=
    run KEY decimal_StringToNumber after
      (settle (startup KEY decimal_StringToNumber w0)
         (run KEY decimal_StringToNumber before
            (snd (constructor KEY decimal_StringToNumber w0)))) in
  truthy (session w) = true /\ populated (session w) = true.
Proof.
  intros w0 before after w.
  assert (truthy (restored w0) = true -> populated (restored w0) = true) as H0.
  { intros _. vm_compute. reflexivity. }
  destruct (C7_sessions_stay_populated KEY decimal_StringToNumber w0 before after H0)
    as (_ & Hw & _).
  assert (truthy (session w) = true) as Ht by (vm_compute; reflexivity).
  split; [exact Ht|]. exact (Hw Ht).
Defined.

(** The storage holds a record that is valid JSON with the [email] alone.
    The constructor adopts it: the user is authenticated, three of the four
    properties are missing. *)
Lemma C7_counterexample :
  let w0 := page VUndefined (stored partial_record) 2000 issuer_down refresher_down in
  let w := snd (constructor KEY decimal_StringToNumber w0) in
  session w = VObj [("email", VStr "a@b.com")] /\
  isAuthenticated w = true /\
  userEmail w = VStr "a@b.com" /\
  get (session w) "idToken" = VUndefined /\
  get (session w) "refreshToken" = VUndefined /\
  get (session w) "expiresAt" = VUndefined /\
  populated (session w) = false.
Proof. vm_compute. repeat split. Qed.



Lemma C9_witness :
  let w := page (sample_session (Int 1000000)) (stored sample_record) 2000
             issuer_down refresher_down in
  let u := page VNull ∅ 2000 issuer_down refresher_down in
  (isAuthenticated w = true /\
   session (snd (logout w)) = VNull /\
   persisted (snd (logout w)) = None /\
   getValidToken KEY decimal_StringToNumber (snd (logout w)) =
     (Throw not_authenticated, snd (logout w)) /\
   logout (snd (logout w)) = (Ok tt, snd (logout w))) /\
  snd (logout u) = u.
Proof.
  intros w u.
  destruct (C9_logout_clears_everything KEY decimal_StringToNumber w)
    as (_ & Hsession & Hpersisted & _ & _ & Htoken & _ & _ & _ & Hagain).
  destruct (C9_logout_clears_everything KEY decimal_StringToNumber u)
    as (_ & _ & _ & _ & _ & _ & _ & _ & Hnoop & _).
  split; [|apply Hnoop; split; reflexivity].
  split; [reflexivity|]. auto.
Defined.

(** A page that started on a record cut short is not authenticated and
    keeps the record; a page that started on the record [0] holds the
    session [0], which is falsy.  [logout] changes both: it removes the
    record of the first and replaces the session of the second. *)
Lemma C9_counterexample :
  let w := snd (constructor KEY decimal_StringToNumber
                  (page VUndefined (stored "{'email':") 2000 issuer_down refresher_down)) in
  let v := snd (constructor KEY decimal_StringToNumber
                  (page VUndefined (stored "0") 2000 issuer_down refresher_down)) in
  (isAuthenticated w = false /\
   persisted w = Some "{'email':" /\
   persisted (snd (logout w)) = None /\
   snd (logout w) <> w) /\
  (isAuthenticated v = false /\
   session v = VNum (Int 0) /\
   session (snd (logout v)) = VNull /\
   snd (logout v) <> v).
Proof.
  intros w v. split.
  - assert (persisted w = Some "{'email':") as Hw by (vm_compute; reflexivity).
    assert (persisted (snd (logout w)) = None) as Hl by (vm_compute; reflexivity).
    repeat split; try assumption; try reflexivity.
    intros E. rewrite E, Hw in Hl. discriminate.
  - assert (session v = VNum (Int 0)) as Hv by (vm_compute; reflexivity).
    assert (session (snd (logout v)) = VNull) as Hl by (vm_compute; reflexivity).
    repeat split; try assumption; try reflexivity.
    intros E. rewrite E, Hv in Hl. discriminate.
Qed.

Lemma C10_witness :
  let w := page (sample_session (Int 1000000)) (stored sample_record) 1001000
             issuer_ok refresher_ok in
  login EmptyString decimal_StringToNumber "a@b.com" "secret" w = (Throw config_error, w) /\
  getValidToken EmptyString decimal_StringToNumber w = (Throw config_error, w).
Proof.
  intros w.
  destruct (C10_missing_api_key EmptyString decimal_StringToNumber w eq_refl)
    as (Hlogin & Htoken).
  split; [apply Hlogin|].
  exact (Htoken (Int 1000000) eq_refl eq_refl eq_refl).
Defined.

(** ** Further statements at the sample data *)

Example search_samples :
  filteredConsultants ascii_toLowerCase " AN " [ana; bruno; carla] = Ok [ana; carla] /\
  filteredConsultants ascii_toLowerCase "555" [ana; bruno; carla] = Ok [] /\
  filteredConsultants ascii_toLowerCase "dar" [ana; dario] = Ok [dario] /\
  filteredConsultants ascii_toLowerCase "fisc" [ana; dario] = Throw TypeError.
Proof. vm_compute. auto. Qed.

Example service_samples :
  let w := page (sample_session (Int 1000000)) (stored sample_record) 2000
             issuer_down refresher_down in
  invoke KEY decimal_StringToNumber API OpList (client w backend_ok) =
    (Ok (VArr [ana; bruno; carla]),
     mkClient (with_clock 2080 w) backend_ok
       [GET API (bearer_headers "T1") []]) /\
  fst (invoke KEY decimal_StringToNumber API (OpRemove "c1") (client w backend_refusing)) =
    Throw (HttpErrorResponse 401).
Proof. vm_compute. auto. Qed.

(** A record cut short: the page starts signed out and keeps the record. *)
Lemma X1_witness :
  let w0 := page VUndefined (stored "{'email':") 2000 issuer_down refresher_down in
  constructor KEY decimal_StringToNumber w0 = (Ok tt, with_session VNull w0) /\
  persisted (snd (constructor KEY decimal_StringToNumber w0)) = Some "{'email':".
Proof.
  intros w0.
  destruct (X1_unparseable_record_at_startup KEY decimal_StringToNumber w0 "{'email':"
              SyntaxError) as (H1 & _ & H3 & _);
    [vm_compute; reflexivity|vm_compute; reflexivity|].
  split; assumption.
Defined.

(** Fifty seconds before the expiry the page starts without a request,
    and the first call for a token refreshes. *)
Lemma X2_witness :
  let w0 := page VUndefined (stored sample_record) 950000 issuer_down refresher_ok in
  let started := with_session (restored w0) w0 in
  constructor KEY decimal_StringToNumber w0 = (Ok tt, started) /\
  posts (snd (getValidToken KEY decimal_StringToNumber started)) =
    [RefreshRequest (refresh_endpoint KEY) "refresh_token" (VStr "R1")].
Proof.
  intros w0 started.
  destruct (X2_startup_has_no_margin KEY decimal_StringToNumber w0 1000000) as [H1 H2];
    [vm_compute; reflexivity|vm_compute; reflexivity|vm_compute; reflexivity|].
  split; [exact H1|].
  subst started. rewrite H2; [vm_compute; reflexivity|].
  unfold w0, page. cbn [clock]. lia.
Defined.

Lemma X3_witness :
  let w := page (sample_session (Int 1000000)) (stored sample_record) 2000
             issuer_down refresher_down in
  let w' := snd (login KEY decimal_StringToNumber "a@b.com" "guess" w) in
  session w' = session w /\ window w' = window w.
Proof.
  intros w w'.
  destruct (X3_failed_login_keeps_the_session KEY decimal_StringToNumber
              "a@b.com" "guess" w w' (HttpErrorResponse 400)) as (H1 & H2 & _);
    [vm_compute; reflexivity|].
  split; assumption.
Defined.

(** A reload a thousand seconds after the sign-in of the scenario. *)
Lemma X4_witness :
  let w := page VNull ∅ 0 issuer_ok refresher_down in
  let w1 := snd (login KEY decimal_StringToNumber "a@b.com" "secret" w) in
  let w2 := with_session VUndefined (with_clock 1000000 w1) in
  restored w1 = session w1 /\
  constructor KEY decimal_StringToNumber w2 = (Ok tt, with_session (session w1) w2).
Proof.
  intros w w1 w2.
  destruct (X4_reload_after_login KEY decimal_StringToNumber "a@b.com" "secret" w w1
              (SignInResponse.Build "T1" "a@b.com" "R1" "3600") 3600 ∅) as [H1 H2];
    [vm_compute; reflexivity..|].
  split; [exact H1|].
  apply H2; vm_compute; reflexivity.
Defined.

Lemma X5_witness :
  let w := page VNull ∅ 0 issuer_ok refresher_down in
  let w1 := snd (login KEY decimal_StringToNumber "a@b.com" "secret" w) in
  getValidToken KEY decimal_StringToNumber w1 = (Ok (VStr "T1"), w1).
Proof.
  intros w w1.
  apply (X5_token_after_login KEY decimal_StringToNumber "a@b.com" "secret" w w1
           (SignInResponse.Build "T1" "a@b.com" "R1" "3600") 3600);
    [vm_compute; reflexivity| vm_compute; reflexivity|vm_compute; reflexivity|lia].
Defined.

(** A refresh that grants thirty seconds: the next call refreshes again,
    with the refresh token [R2] that the first refresh brought. *)
Lemma X6_witness :
  let w := page (sample_session (Int 1000000)) (stored sample_record) 1001000
             issuer_down refresher_short in
  let w1 := snd (getValidToken KEY decimal_StringToNumber w) in
  posts (snd (getValidToken KEY decimal_StringToNumber w1)) =
    [RefreshRequest (refresh_endpoint KEY) "refresh_token" (VStr "R1");
     RefreshRequest (refresh_endpoint KEY) "refresh_token" (VStr "R2")].
Proof.
  intros w w1.
  destruct (X6_call_after_a_refresh KEY decimal_StringToNumber w (Int 1000000)
              (RefreshResponse.Build "T2" "R2" "30" "uid-1") 30) as [_ H];
    [vm_compute; reflexivity..|].
  subst w1. rewrite H; [reflexivity|lia].
Defined.

(** The issuer declares the lifetime [soon].  The page is reloaded a
    thousand seconds after the sign-in. *)
Lemma X7_witness :
  let w := page VNull ∅ 0 issuer_vague refresher_ok in
  let w1 := snd (login KEY decimal_StringToNumber "a@b.com" "secret" w) in
  let w2 := page VUndefined
              (stored (js "{'email':'a@b.com','idToken':'T1','refreshToken':'R1','expiresAt':null}"))
              1000000 issuer_ok refresher_ok in
  get (session w1) "expiresAt" = VNum NaN /\
  posts (snd (getValidToken KEY decimal_StringToNumber (with_clock 5000 w1))) =
    [SignInRequest (signIn_endpoint KEY) "a@b.com" "secret" true;
     RefreshRequest (refresh_endpoint KEY) "refresh_token" (VStr "R1")] /\
  posts (snd (constructor KEY decimal_StringToNumber w2)) =
    [RefreshRequest (refresh_endpoint KEY) "refresh_token" (VStr "R1")].
Proof.
  intros w w1 w2.
  destruct (X7_lifetime_that_is_no_number KEY decimal_StringToNumber "a@b.com" "secret" w w1
              (SignInResponse.Build "T1" "a@b.com" "R1" "soon") ∅)
    as (H1 & _ & H2 & H3);
    [vm_compute; reflexivity..|].
  split; [exact H1|]. split.
  - rewrite (H2 5000). vm_compute. reflexivity.
  - rewrite (H3 w2); [vm_compute; reflexivity|vm_compute; reflexivity|].
    unfold w2, page. cbn [clock]. lia.
Defined.


Lemma X11_witness :
  let c := client (page VNull ∅ 0 issuer_ok refresher_ok) backend_ok in
  invoke KEY decimal_StringToNumber API OpList c = (Throw not_authenticated, c).
Proof.
  intros c.
  apply (X11_unauthenticated_client_sends_nothing KEY decimal_StringToNumber API OpList c).
  reflexivity.
Defined.

Lemma X12_witness :
  let c := client (page (sample_session (Int 1000000)) (stored sample_record) 1001000
                     issuer_down refresher_down) backend_ok in
  fst (invoke KEY decimal_StringToNumber API (OpRemove "c1") c) =
    Throw (HttpErrorResponse 503) /\
  calls (snd (invoke KEY decimal_StringToNumber API (OpRemove "c1") c)) = [].
Proof.
  intros c.
  destruct (X12_failed_token_stops_the_call KEY decimal_StringToNumber API (OpRemove "c1") c
              (HttpErrorResponse 503) (snd (getValidToken KEY decimal_StringToNumber (auth c))))
    as (H1 & H2 & _); [vm_compute; reflexivity|].
  split; [rewrite H1; reflexivity|exact H2].
Defined.

Lemma X13_witness :
  let c := client (page (sample_session (Int 1000000)) (stored sample_record) 2000
                     issuer_down refresher_down) backend_ok in
  calls (snd (invoke KEY decimal_StringToNumber API (OpGetById "c1") c)) =
    [GET API (bearer_headers "T1") [("id", "c1")]].
Proof.
  intros c.
  destruct (X13_fresh_session_sends_its_token KEY decimal_StringToNumber API (OpGetById "c1")
              c 1000000 "T1") as (H & _);
    [reflexivity|reflexivity|unfold c, client, page; cbn [auth clock]; lia
    |reflexivity|reflexivity|].
  exact H.
Defined.

Lemma X14_witness :
  let c := client (page (sample_session (Int 1000000)) (stored sample_record) 1001000
                     issuer_down refresher_ok) backend_refusing in
  let payload := ConsultantInput.Build "Eva Melo" "eva@b.com" None (Some "Fiscal") in
  calls (snd (invoke KEY decimal_StringToNumber API (OpCreate payload) c)) =
    [POST API payload (bearer_headers "T2")].
Proof.
  intros c payload.
  destruct (X14_stale_session_sends_the_new_token KEY decimal_StringToNumber API
              (OpCreate payload) c (Int 1000000)
              (RefreshResponse.Build "T2" "R2" "3600" "uid-1")) as (H & _);
    [reflexivity..|].
  exact H.
Defined.

(** The session that the record [partial_record] gives, completed with an
    expiry: it holds no token. *)
Lemma X15_witness :
  let s := VObj [("email", VStr "a@b.com"); ("expiresAt", VNum (Int 1000000))] in
  let c := client (page s ∅ 2000 issuer_down refresher_down) backend_ok in
  calls (snd (invoke KEY decimal_StringToNumber API OpList c)) = [GET API json_headers []].
Proof.
  intros s c.
  destruct (X15_session_without_token_calls_unauthorized KEY decimal_StringToNumber API
              OpList c 1000000) as (H & _);
    [reflexivity|reflexivity|unfold c, client, page; cbn [auth clock]; lia|reflexivity|].
  exact H.
Defined.

Lemma X17_witness :
  filteredConsultants ascii_toLowerCase " AN " [ana; bruno; carla; ana] =
    Ok [ana; carla; ana].
Proof.
  rewrite (X17_search_on_typed_consultants ascii_toLowerCase " AN " [ana; bruno; carla; ana]).
  - vm_compute. reflexivity.
  - vm_compute. reflexivity.
  - repeat constructor.
Defined.

Lemma X18_witness :
  exists kept1 : list value,
    filteredConsultants ascii_toLowerCase "an" [ana; bruno; carla] = Ok kept1 /\
    sublist [ana] kept1 /\
    sublist kept1 [ana; bruno; carla] /\
    filteredConsultants ascii_toLowerCase "Ana L" kept1 = Ok [ana].
Proof.
  apply (X18_longer_term_narrows ascii_toLowerCase "an" "Ana L" [ana; bruno; carla] [ana]).
  - vm_compute. reflexivity.
  - vm_compute. reflexivity.
Defined.

(** The backend sent [[null]]. *)
Lemma X19_witness :
  filteredConsultants ascii_toLowerCase "  " [VNull] = Ok [VNull] /\
  filteredConsultants ascii_toLowerCase "a" [VNull] = Throw TypeError.
Proof.
  split.
  - apply (proj1 (X19_search_on_an_unreadable_consultant ascii_toLowerCase "  " [VNull])).
    constructor. reflexivity.
  - apply (proj1 (X19_search_on_an_unreadable_consultant ascii_toLowerCase "a" [VNull])).
    constructor. reflexivity.
Defined.
